(** * pull-sizer: a webhook handler that labels pull requests by size

    A shallow embedding of [main.go] and the properties of its
    specification.  Go strings are [string], byte slices are [list byte],
    Go's 64-bit [int] and [int64] are [Z] with the wrap-around written out,
    pointers that the code dereferences are [option]s whose [None] makes
    the dereference panic, the upstream GitHub client is an interface
    (a type class) over an abstract world, and every call the handler makes
    into the go-github library is recorded in a trace. *)

From Stdlib Require Import ZArith Lia String Ascii List Permutation.
From Stdlib.Strings Require Import Byte.
From stdpp Require Import gmap strings list.
Import ListNotations.
Local Open Scope string_scope.
Local Open Scope list_scope.
Local Open Scope Z_scope.
Set Warnings "-clear-no-such-hyp".

(** ** Go's standard library: crypto/sha1, crypto/hmac, crypto/subtle, fmt *)

Module Crypto.

Definition byte_to_Z (b : byte) : Z := Z.of_N (Byte.to_N b).

Definition Z_to_byte (z : Z) : byte :=
  match Byte.of_N (Z.to_N (z mod 256)) with
  | Some b => b
  | None => x00
  end.

Definition u32 (z : Z) : Z := z mod 2 ^ 32.

Definition rotl (n x : Z) : Z :=
  u32 (Z.lor (Z.shiftl x n) (Z.shiftr x (32 - n))).

Definition not32 (x : Z) : Z := Z.lxor x 0xFFFFFFFF.

(** The [n] low bytes of [z], most significant first. *)
Fixpoint be_bytes (n : nat) (z : Z) : list Z :=
  match n with
  | O => []
  | S m => Z.shiftr z (8 * Z.of_nat m) mod 256 :: be_bytes m z
  end.

(** FIPS 180-4 padding: a one bit, zeros up to 56 modulo 64, and the
    length in bits as a 64-bit big-endian number. *)
Definition pad (msg : list Z) : list Z :=
  let len := Z.of_nat (length msg) in
  msg ++ [0x80] ++ repeat 0 (Z.to_nat ((55 - len) mod 64))
      ++ be_bytes 8 (8 * len).

Fixpoint be_words (fuel : nat) (bs : list Z) : list Z :=
  match fuel, bs with
  | S f, b0 :: b1 :: b2 :: b3 :: rest =>
      (((b0 * 256 + b1) * 256 + b2) * 256 + b3) :: be_words f rest
  | _, _ => []
  end.

Fixpoint blocks (fuel : nat) (ws : list Z) : list (list Z) :=
  match fuel, ws with
  | S f, _ :: _ => take 16 ws :: blocks f (drop 16 ws)
  | _, _ => []
  end.

(** The message schedule: sixteen words extended to eighty. *)
Fixpoint schedule (n : nat) (w : list Z) : list Z :=
  match n with
  | O => w
  | S m =>
      let i := length w in
      let at_ (k : nat) := nth (i - k) w 0 in
      schedule m
        (w ++ [rotl 1 (Z.lxor (Z.lxor (Z.lxor (at_ 3%nat) (at_ 8%nat))
                                      (at_ 14%nat)) (at_ 16%nat))])
  end.

Definition round (i : nat) (st : Z * Z * Z * Z * Z) (wi : Z)
  : Z * Z * Z * Z * Z :=
  let '(a, b, c, d, e) := st in
  let '(f, k) :=
    if (i <? 20)%nat then
      (Z.lor (Z.land b c) (Z.land (not32 b) d), 0x5A827999)
    else if (i <? 40)%nat then
      (Z.lxor (Z.lxor b c) d, 0x6ED9EBA1)
    else if (i <? 60)%nat then
      (Z.lor (Z.lor (Z.land b c) (Z.land b d)) (Z.land c d), 0x8F1BBCDC)
    else
      (Z.lxor (Z.lxor b c) d, 0xCA62C1D6) in
  (u32 (rotl 5 a + f + e + k + wi), a, rotl 30 b, c, d).

Fixpoint rounds (i : nat) (ws : list Z) (st : Z * Z * Z * Z * Z)
  : Z * Z * Z * Z * Z :=
  match ws with
  | [] => st
  | wi :: rest => rounds (S i) rest (round i st wi)
  end.

Definition compress (h : Z * Z * Z * Z * Z) (block : list Z)
  : Z * Z * Z * Z * Z :=
  let '(h0, h1, h2, h3, h4) := h in
  let '(a, b, c, d, e) := rounds 0 (schedule 64 block) h in
  (u32 (h0 + a), u32 (h1 + b), u32 (h2 + c), u32 (h3 + d), u32 (h4 + e)).

Definition sha1_init : Z * Z * Z * Z * Z :=
  (0x67452301, 0xEFCDAB89, 0x98BADCFE, 0x10325476, 0xC3D2E1F0).

Definition sha1_Z (msg : list Z) : list Z :=
  let padded := pad msg in
  let ws := be_words (length padded) padded in
  let '(h0, h1, h2, h3, h4) :=
    fold_left compress (blocks (length ws) ws) sha1_init in
  be_bytes 4 h0 ++ be_bytes 4 h1 ++ be_bytes 4 h2 ++ be_bytes 4 h3
    ++ be_bytes 4 h4.

(** RFC 2104 with SHA-1: block size 64, longer keys are hashed first. *)
Definition hmac_sha1_Z (key msg : list Z) : list Z :=
  let key' := if (64 <? length key)%nat then sha1_Z key else key in
  let kp := key' ++ repeat 0 (64 - length key')%nat in
  sha1_Z (map (Z.lxor 0x5c) kp ++ sha1_Z (map (Z.lxor 0x36) kp ++ msg)).

(** [hmac.New(sha1.New, key)], [Write(body)], [Sum(nil)]. *)
Definition hmac_sha1 (key body : list byte) : list byte :=
  map Z_to_byte (hmac_sha1_Z (map byte_to_Z key) (map byte_to_Z body)).

Definition hex_digit (n : Z) : ascii :=
  if n <? 10 then ascii_of_N (Z.to_N (48 + n))
  else ascii_of_N (Z.to_N (87 + n)).

(** The verb [%x] of [fmt.Sprintf] on a byte slice: two lowercase
    hexadecimal digits for each byte. *)
Fixpoint sprintf_x (bs : list byte) : string :=
  match bs with
  | [] => EmptyString
  | b :: rest =>
      let z := byte_to_Z b in
      String (hex_digit (z / 16)) (String (hex_digit (z mod 16))
                                          (sprintf_x rest))
  end.

(** [subtle.ConstantTimeByteEq]: [int((uint32(x^y) - 1) >> 31)]. *)
Definition ConstantTimeByteEq (x y : Z) : Z :=
  Z.shiftr (u32 (Z.lxor x y - 1)) 31.

(** The loop of [subtle.ConstantTimeCompare]: [v |= x[i] ^ y[i]]. *)
Fixpoint xor_accumulate (v : Z) (x y : list byte) : Z :=
  match x, y with
  | a :: x', b :: y' =>
      xor_accumulate (Z.lor v (Z.lxor (byte_to_Z a) (byte_to_Z b))) x' y'
  | _, _ => v
  end.

Definition ConstantTimeCompare (x y : list byte) : Z :=
  if negb (length x =? length y)%nat then 0
  else ConstantTimeByteEq (xor_accumulate 0 x y) 0.

End Crypto.

(** ** Go values *)

(** A Go [error] is modelled by its message; [nil] is [None]. *)
Definition error : Type := string.

(** Go's [int] on amd64 (the build target) and [int64]: 64 bits, two's
    complement, wrapping around. *)
Definition MaxInt64 : Z := 2 ^ 63 - 1.
Definition int (z : Z) : Z := (z + 2 ^ 63) mod 2 ^ 64 - 2 ^ 63.
Definition int64 (z : Z) : Z := (z + 2 ^ 63) mod 2 ^ 64 - 2 ^ 63.

(** [strings.Split(s, sep)] for a separator of one byte: the substrings
    between the separators, [s] itself when there is none. *)
Fixpoint Split (s : string) (sep : ascii) : list string :=
  match s with
  | EmptyString => [EmptyString]
  | String c rest =>
      if Ascii.eqb c sep then EmptyString :: Split rest sep
      else match Split rest sep with
           | [] => [String c EmptyString]
           | hd :: tl => String c hd :: tl
           end
  end.

(** ** The size table *)

Record Size := { Min : Z; Max : Z }.

(** [type Sizes map[string]Size], and the table [init] builds. *)
Definition defaultEntries : list (string * Size) :=
  [ ("size/XS",  {| Min := 0;    Max := 9 |});
    ("size/S",   {| Min := 10;   Max := 29 |});
    ("size/M",   {| Min := 30;   Max := 99 |});
    ("size/L",   {| Min := 100;  Max := 499 |});
    ("size/XL",  {| Min := 500;  Max := 999 |});
    ("size/XXL", {| Min := 1000; Max := MaxInt64 |}) ].

Abbreviation Sizes := (gmap string Size).

Definition defaultSizes : Sizes := list_to_map defaultEntries.

(** A [for k, v := range m] visits every entry of the map once, in an
    order Go leaves unspecified: any permutation of the entries. *)
Definition ranges_over (m : Sizes) (order : list (string * Size)) : Prop :=
  order ≡ₚ map_to_list m.

(** The orders of the two [range] loops of one [updateLabel] call. *)
Record RangeOrders := {
  removeOrder : list (string * Size);
  addOrder : list (string * Size)
}.

(** ** Configuration: the package-level variables set by [main] *)

Record Config := {
  sharedSecret : string;
  repoOrOrgName : string;
  ghToken : string
}.

(** ** The go-github library *)

Record Response := { StatusCode : Z; Status : string; NextPage : Z }.
Record ListOptions := { Page : Z; PerPage : Z }.
(** An entry of the listing; an entry that is itself nil behaves as one
    without [Changes], the dereference panicking in both cases. *)
Record CommitFile := { Changes : option Z }.
Record Repository := { FullName : option string }.
Record PullRequestEvent := {
  Action : option string;
  Number : option Z;
  Repo : option Repository
}.

(** The dynamic value of the [interface{}] that [github.ParseWebHook]
    returns beside its error: nil (the library returns nil with no error for
    the body [null]), a [*PullRequestEvent], or a pointer to an event of
    another type, given by its name. *)
Inductive Event :=
| NilEvent
| PullRequest (payload : PullRequestEvent)
| OtherEvent (type : string).

(** The library as the handler uses it, over the state [W] of the upstream
    service.  A [*Response] that is [nil] is [None]; [ParseWebHook] gives
    [inr] when its error is not nil. *)
Class GitHub (W : Type) := {
  ParseWebHook : string -> list byte -> Event + error;
  ListFiles : string -> string -> Z -> ListOptions -> W ->
              (list CommitFile * option Response * option error) * W;
  RemoveLabelForIssue : string -> string -> Z -> string -> W ->
                        (option Response * option error) * W;
  AddLabelsToIssue : string -> string -> Z -> list string -> W ->
                     (list string * option Response * option error) * W
}.

(** The calls into the library, as they are recorded. *)
Inductive Call :=
| CallParseWebHook (event : string) (body : list byte)
| CallListFiles (owner repo : string) (number : Z) (opts : ListOptions)
| CallRemoveLabel (owner repo : string) (number : Z) (label : string)
| CallAddLabels (owner repo : string) (number : Z) (labels : list string).

(** The calls that reach the upstream service. *)
Definition upstream (c : Call) : bool :=
  match c with
  | CallParseWebHook _ _ => false
  | _ => true
  end.

Definition is_add (c : Call) : bool :=
  match c with
  | CallAddLabels _ _ _ _ => true
  | _ => false
  end.

(** ** Computations: upstream state, recorded calls, panics *)

Inductive panic :=
| NilDereference
| IndexOutOfRange (i : nat) (len : nat)
| InterfaceConversion.

Inductive outcome (A : Type) :=
| Done (a : A)
| Panic (p : panic)
| OutOfFuel.
Arguments Done {A} a.
Arguments Panic {A} p.
Arguments OutOfFuel {A}.

(** A computation runs from an upstream state to an outcome, the new
    upstream state and the calls it made, oldest first. *)
Definition M (W A : Type) : Type := W -> outcome A * W * list Call.

Definition ret {W A} (a : A) : M W A := fun w => (Done a, w, []).

Definition bind {W A B} (m : M W A) (k : A -> M W B) : M W B :=
  fun w =>
    match m w with
    | (Done a, w1, t1) =>
        let '(o, w2, t2) := k a w1 in (o, w2, t1 ++ t2)
    | (Panic p, w1, t1) => (Panic p, w1, t1)
    | (OutOfFuel, w1, t1) => (OutOfFuel, w1, t1)
    end.

Notation "'let*' x ':=' m 'in' k" := (bind m (fun x => k))
  (at level 10, x pattern, m at level 100, k at level 200).

Definition throw {W A} (p : panic) : M W A := fun w => (Panic p, w, []).
Definition out_of_fuel {W A} : M W A := fun w => (OutOfFuel, w, []).

(** [*p] *)
Definition deref {W A} (p : option A) : M W A :=
  match p with
  | Some a => ret a
  | None => throw NilDereference
  end.

(** [l[i]] *)
Definition index {W A} (l : list A) (i : nat) : M W A :=
  match l !! i with
  | Some a => ret a
  | None => throw (IndexOutOfRange i (length l))
  end.

(** The type assertion of [e] to [*github.PullRequestEvent], in the form
    with one result: it panics unless [e] holds a [*PullRequestEvent]. *)
Definition asPullRequestEvent {W} (e : Event) : M W PullRequestEvent :=
  match e with
  | PullRequest payload => ret payload
  | _ => throw InterfaceConversion
  end.

Definition outcome_of {W A} (r : outcome A * W * list Call) : outcome A :=
  r.1.1.
Definition world_of {W A} (r : outcome A * W * list Call) : W := r.1.2.
Definition calls_of {W A} (r : outcome A * W * list Call) : list Call := r.2.

(** ** main.go *)

(** The request as the handler reads it: its headers, and its body, which
    is [None] when [ioutil.ReadAll] fails. *)
Record Request := {
  Headers : list (string * string);
  Body : option (list byte)
}.

(** The bytes of a header field name: the token characters. *)
Definition validHeaderFieldByte (c : ascii) : bool :=
  let n := N_of_ascii c in
  ((48 <=? n) && (n <=? 57) || (65 <=? n) && (n <=? 90)
   || (97 <=? n) && (n <=? 122)
   || existsb (N.eqb n)
        [33; 35; 36; 37; 38; 39; 42; 43; 45; 46; 94; 95; 96; 124; 126])%N.

(** The loop of [textproto.canonicalMIMEHeaderKey]: the first letter and
    every letter after a "-" in upper case, the other letters in lower
    case. *)
Fixpoint canonicalMIMEHeaderKey (upper : bool) (s : string) : string :=
  match s with
  | EmptyString => EmptyString
  | String c rest =>
      let n := N_of_ascii c in
      let c' :=
        (if upper && (97 <=? n) && (n <=? 122) then ascii_of_N (n - 32)
         else if negb upper && (65 <=? n) && (n <=? 90)
              then ascii_of_N (n + 32)
              else c)%N in
      String c' (canonicalMIMEHeaderKey (Ascii.eqb c' "-") rest)
  end.

(** [textproto.CanonicalMIMEHeaderKey]: a name with a byte that is not a
    token character is left as it is. *)
Definition CanonicalMIMEHeaderKey (s : string) : string :=
  if forallb validHeaderFieldByte (list_ascii_of_string s)
  then canonicalMIMEHeaderKey true s
  else s.

(** [c.GetHeader(key)] and [c.Request.Header.Get(key)].  [Headers] are the
    header lines as they were sent; net/http keeps them under their
    canonical names, and [Header.Get] looks the canonical form of [key] up:
    the first value of the header whose name has the canonical form of
    [key], the empty string when the request has none.  gin's [GetHeader]
    is asked for X-Hub-Signature, which is its own canonical form. *)
Fixpoint GetHeader (hs : list (string * string)) (key : string) : string :=
  match hs with
  | [] => ""
  | (k, v) :: rest =>
      if String.eqb (CanonicalMIMEHeaderKey k) (CanonicalMIMEHeaderKey key)
      then v
      else GetHeader rest key
  end.

(** [c.JSON(code, gin.H{"message": message})] *)
Record Reply := JSON { Code : Z; Message : string }.

Definition StatusOK : Z := 200.
Definition StatusBadRequest : Z := 400.
Definition StatusForbidden : Z := 403.
Definition StatusInternalServerError : Z := 500.

Definition validateSig (cfg : Config) (sig : string) (body : list byte)
  : option error :=
  let sum := Crypto.hmac_sha1 (list_byte_of_string (sharedSecret cfg)) body in
  let checksum := "sha1=" +:+ Crypto.sprintf_x sum in
  if negb (Crypto.ConstantTimeCompare (list_byte_of_string checksum)
                                      (list_byte_of_string sig) =? 1)
  then Some "payload signature check failed"
  else None.

Section Handler.

Context {W : Type} {gh : GitHub W}.

Definition callParseWebHook (event : string) (body : list byte)
  : M W (Event + error) :=
  fun w => (Done (ParseWebHook event body), w,
            [CallParseWebHook event body]).

Definition callListFiles (owner repo : string) (number : Z)
  (opts : ListOptions)
  : M W (list CommitFile * option Response * option error) :=
  fun w => let '(r, w') := ListFiles owner repo number opts w in
           (Done r, w', [CallListFiles owner repo number opts]).

Definition callRemoveLabel (owner repo : string) (number : Z)
  (label : string) : M W (option Response * option error) :=
  fun w => let '(r, w') := RemoveLabelForIssue owner repo number label w in
           (Done r, w', [CallRemoveLabel owner repo number label]).

Definition callAddLabels (owner repo : string) (number : Z)
  (labels : list string)
  : M W (list string * option Response * option error) :=
  fun w => let '(r, w') := AddLabelsToIssue owner repo number labels w in
           (Done r, w', [CallAddLabels owner repo number labels]).

(** [for _, cf := range cfs { changes += *cf.Changes }] *)
Fixpoint sumChanges (cfs : list CommitFile) (changes : Z) : M W Z :=
  match cfs with
  | [] => ret changes
  | cf :: rest =>
      let* c := deref (Changes cf) in
      sumChanges rest (int (changes + c))
  end.

(** The [for] loop of [readPaginatedFileChanges]; each iteration takes
    one unit of fuel. *)
Fixpoint readPages (fuel : nat) (owner repo : string) (number : Z)
  (opts : ListOptions) (changes : Z) : M W (Z * option error) :=
  match fuel with
  | O => out_of_fuel
  | S fuel' =>
      let* (cfs, resp, err) := callListFiles owner repo number opts in
      match err with
      | Some e => ret (0, Some e)
      | None =>
          let* r := deref resp in
          if negb (StatusCode r =? 200) then
            ret (0, Some ("Unable to get changed files. Status code: "
                          +:+ Status r))
          else
            let* changes' := sumChanges cfs changes in
            if NextPage r =? 0 then ret (changes', None)
            else
              readPages fuel' owner repo number
                {| Page := NextPage r; PerPage := PerPage opts |} changes'
      end
  end.

Definition readPaginatedFileChanges (fuel : nat) (owner repo : string)
  (number : Z) : M W (Z * option error) :=
  readPages fuel owner repo number {| Page := 0; PerPage := 100 |} 0.

(** The first loop of [updateLabel]; [Some err] is the early return. *)
Fixpoint removeLabels (owner repo : string) (number : Z)
  (order : list (string * Size)) : M W (option error) :=
  match order with
  | [] => ret None
  | (k, _) :: rest =>
      let* (res, err) := callRemoveLabel owner repo number k in
      let* r := deref res in
      if StatusCode r =? 404 then removeLabels owner repo number rest
      else
        match err with
        | Some e => ret (Some e)
        | None => removeLabels owner repo number rest
        end
  end.

(** The second loop of [updateLabel], and the return after it. *)
Fixpoint addLabel (owner repo : string) (number changes : Z)
  (order : list (string * Size)) : M W (string * option error) :=
  match order with
  | [] => ret ("", None)
  | (k, v) :: rest =>
      let c64 := int64 changes in
      if (Min v <=? c64) && (c64 <=? Max v) then
        let labels := [k] in
        let* (_, _, err) := callAddLabels owner repo number labels in
        match err with
        | Some e => ret (k, Some e)
        | None => ret (k, None)
        end
      else addLabel owner repo number changes rest
  end.

Definition updateLabel (ro : RangeOrders) (owner repo : string)
  (number changes : Z) : M W (string * option error) :=
  let* stop := removeLabels owner repo number (removeOrder ro) in
  match stop with
  | Some err => ret ("", Some err)
  | None => addLabel owner repo number changes (addOrder ro)
  end.

Definition processHook (cfg : Config) (ro : RangeOrders) (fuel : nat)
  (req : Request) : M W Reply :=
  let sig := GetHeader (Headers req) "X-Hub-Signature" in
  if String.eqb sig "" then
    ret (JSON StatusBadRequest "Missing X-Hub-Signature")
  else
    match Body req with
    | None => ret (JSON StatusBadRequest "Malformed body")
    | Some body =>
        match validateSig cfg sig body with
        | Some _ =>
            ret (JSON StatusForbidden
                      "Validating payload against signature failed")
        | None =>
            let event := GetHeader (Headers req) "X-GitHub-Event" in
            if negb (String.eqb event "pull_request") then
              ret (JSON StatusOK "Skipping event type")
            else
              let* e := callParseWebHook event body in
              match e with
              | inr _ => ret (JSON StatusBadRequest "Malformed body")
              | inl e =>
                  let* payload := asPullRequestEvent e in
                  let* repository := deref (Repo payload) in
                  let* fullName := deref (FullName repository) in
                  let repoSplit := Split fullName "/" in
                  let checkSplit := Split (repoOrOrgName cfg) "/" in
                  let* r0 := index repoSplit 0 in
                  let* c0 := index checkSplit 0 in
                  if negb (String.eqb r0 c0) then
                    ret (JSON StatusForbidden
                              "Not configured for this repository")
                  else
                    let* other :=
                      (if (1 <? length checkSplit)%nat then
                         let* r1 := index repoSplit 1 in
                         let* c1 := index checkSplit 1 in
                         ret (negb (String.eqb r1 c1))
                       else ret false) in
                    if other : bool then
                      ret (JSON StatusForbidden
                                "Not configured for this repository")
                    else
                      let* action := deref (Action payload) in
                      if negb (String.eqb action "opened")
                         && negb (String.eqb action "synchronize")
                         && negb (String.eqb action "reopened")
                      then ret (JSON StatusOK "Skipping action")
                      else
                        let* r1 := index repoSplit 1 in
                        let* number := deref (Number payload) in
                        let* (changes, err) :=
                          readPaginatedFileChanges fuel r0 r1 number in
                        match err with
                        | Some _ =>
                            ret (JSON StatusBadRequest
                                      "Error reading PR changes")
                        | None =>
                            let* (label, err) :=
                              updateLabel ro r0 r1 number changes in
                            match err with
                            | Some _ =>
                                ret (JSON StatusInternalServerError
                                          "Error processing request (1)")
                            | None => ret (JSON StatusOK "Success")
                            end
                        end
              end
        end
    end.

(** [router.Use(gin.Recovery())]: a panic of the handler is recovered
    and answered with status 500. *)
Definition serve (cfg : Config) (ro : RangeOrders) (fuel : nat)
  (req : Request) : M W Reply :=
  fun w =>
    match processHook cfg ro fuel req w with
    | (Panic _, w', t) => (Done (JSON StatusInternalServerError ""), w', t)
    | r => r
    end.

End Handler.

(** ** Two upstream services to run the handler against *)

(** A service that answers from a script, one canned answer for each call
    whatever its arguments; a call that finds the script empty, or an answer
    of another kind at its head, fails in transport (no response at all). *)
Module Scripted.

Inductive answer :=
| Files (cfs : list CommitFile) (resp : option Response)
        (err : option error)
| Removed (resp : option Response) (err : option error)
| Added (labels : list string) (resp : option Response)
        (err : option error).

Definition refused : error := "dial tcp: connection refused".

Definition listFiles (_ _ : string) (_ : Z) (_ : ListOptions)
  (w : list answer) :=
  match w with
  | Files cfs resp err :: rest => ((cfs, resp, err), rest)
  | _ => (([], None, Some refused), tl w)
  end.

Definition removeLabel (_ _ : string) (_ : Z) (_ : string)
  (w : list answer) :=
  match w with
  | Removed resp err :: rest => ((resp, err), rest)
  | _ => ((None, Some refused), tl w)
  end.

Definition addLabels (_ _ : string) (_ : Z) (_ : list string)
  (w : list answer) :=
  match w with
  | Added labels resp err :: rest => ((labels, resp, err), rest)
  | _ => (([], None, Some refused), tl w)
  end.

(** The payloads the parser knows, by body; the body [null] parses to
    nil with no error. *)
Fixpoint decode (known : list (string * PullRequestEvent))
  (body : list byte) : Event + error :=
  match known with
  | [] =>
      if String.eqb "null" (string_of_list_byte body) then inl NilEvent
      else inr "unexpected end of JSON input"
  | (b, p) :: rest =>
      if String.eqb b (string_of_list_byte body) then inl (PullRequest p)
      else decode rest body
  end.

Definition client (known : list (string * PullRequestEvent))
  : GitHub (list answer) :=
  {| ParseWebHook := fun _ body => decode known body;
     ListFiles := listFiles;
     RemoveLabelForIssue := removeLabel;
     AddLabelsToIssue := addLabels |}.

Definition ok (next : Z) : option Response :=
  Some {| StatusCode := 200; Status := "200 OK"; NextPage := next |}.

Definition status (code : Z) (text : string) : option Response :=
  Some {| StatusCode := code; Status := text; NextPage := 0 |}.

End Scripted.

(** A service that keeps, for each pull request, its set of labels and its
    list of changed files: listing is paginated, removing a label the pull
    request does not carry answers 404 with an error, adding labels is a
    union. *)
Module Hub.

Record state := {
  labelsOf : gmap (string * string * Z) (gset string);
  filesOf : gmap (string * string * Z) (list CommitFile)
}.

Definition labels (h : state) (owner repo : string) (number : Z)
  : gset string :=
  default ∅ (labelsOf h !! (owner, repo, number)).

Definition response (code : Z) (text : string) (next : Z) : Response :=
  {| StatusCode := code; Status := text; NextPage := next |}.

Definition listFiles (owner repo : string) (number : Z)
  (opts : ListOptions) (h : state) :=
  match filesOf h !! (owner, repo, number) with
  | None =>
      (([], Some (response 404 "404 Not Found" 0), Some "404 Not Found"), h)
  | Some files =>
      let page := Z.max 1 (Page opts) in
      let per := Z.to_nat (PerPage opts) in
      let start := (Z.to_nat (page - 1) * per)%nat in
      let next :=
        if (start + per <? length files)%nat then page + 1 else 0 in
      ((take per (drop start files), Some (response 200 "200 OK" next),
        @None error), h)
  end.

Definition removeLabel (owner repo : string) (number : Z)
  (label : string) (h : state) :=
  let ls := labels h owner repo number in
  if decide (label ∈ ls) then
    ((Some (response 200 "200 OK" 0), @None error),
     {| labelsOf := <[(owner, repo, number) := ls ∖ {[label]}]>
                      (labelsOf h);
        filesOf := filesOf h |})
  else
    ((Some (response 404 "404 Not Found" 0), Some "404 Not Found"), h).

Definition addLabels (owner repo : string) (number : Z)
  (new : list string) (h : state) :=
  let ls := labels h owner repo number ∪ list_to_set new in
  ((elements ls, Some (response 200 "200 OK" 0), @None error),
   {| labelsOf := <[(owner, repo, number) := ls]> (labelsOf h);
      filesOf := filesOf h |}).

Definition client (known : list (string * PullRequestEvent))
  : GitHub state :=
  {| ParseWebHook := fun _ body => Scripted.decode known body;
     ListFiles := listFiles;
     RemoveLabelForIssue := removeLabel;
     AddLabelsToIssue := addLabels |}.

End Hub.

(** ** What the specification names *)

(** [sign(s, b)]: the string "sha1=" followed by the lowercase hexadecimal
    HMAC-SHA1 of [b] keyed by [s]. *)
Definition sign (s : string) (b : list byte) : string :=
  "sha1=" +:+ Crypto.sprintf_x (Crypto.hmac_sha1 (list_byte_of_string s) b).

(** The label the second loop of [updateLabel] stops at. *)
Fixpoint selected (changes : Z) (order : list (string * Size))
  : option string :=
  match order with
  | [] => None
  | (k, v) :: rest =>
      if (Min v <=? int64 changes) && (int64 changes <=? Max v) then Some k
      else selected changes rest
  end.

(** The size labels: the keys of the table. *)
Definition sizeLabels : gset string := dom defaultSizes.

(** A changed file whose [Changes] pointer is not [nil], and its count. *)
Definition counted (cf : CommitFile) : Prop := is_Some (Changes cf).
Definition changesOf (cf : CommitFile) : Z := default 0 (Changes cf).

(** The exact sum of the per-file changed-line counts over pages, each
    given with the number of the page that was asked for. *)
Definition totalChanges (pages : list (Z * list CommitFile)) : Z :=
  foldr (fun cf acc => changesOf cf + acc) 0 (concat pages.*2).

Definition listingCalls (owner repo : string) (number : Z)
  (pages : list (Z * list CommitFile)) : list Call :=
  map (fun p => CallListFiles owner repo number
                  {| Page := p.1; PerPage := 100 |}) pages.

Section Listing.

Context {W : Type} {gh : GitHub W}.

(** [serves owner repo number page w pages w']: asked for [page] with page
    size 100 in state [w], the upstream answers 200 with the first of
    [pages] and signals the next page, and so on to the last of [pages],
    after which it signals none and is in state [w']. *)
Inductive serves (owner repo : string) (number : Z)
  : Z -> W -> list (Z * list CommitFile) -> W -> Prop :=
| serves_last page w cfs r w' :
    ListFiles owner repo number {| Page := page; PerPage := 100 |} w
    = ((cfs, Some r, None), w') ->
    StatusCode r = 200 ->
    NextPage r = 0 ->
    serves owner repo number page w [(page, cfs)] w'
| serves_next page w cfs r w' pages w'' :
    ListFiles owner repo number {| Page := page; PerPage := 100 |} w
    = ((cfs, Some r, None), w') ->
    StatusCode r = 200 ->
    NextPage r <> 0 ->
    serves owner repo number (NextPage r) w' pages w'' ->
    serves owner repo number page w ((page, cfs) :: pages) w''.

(** [fails owner repo number page w k e w']: the upstream serves [k] good
    pages from [page] on and then fails, in transport or with a status other
    than 200; [e] is the error the failure amounts to. *)
Inductive fails (owner repo : string) (number : Z)
  : Z -> W -> nat -> error -> W -> Prop :=
| fails_transport page w cfs resp e w' :
    ListFiles owner repo number {| Page := page; PerPage := 100 |} w
    = ((cfs, resp, Some e), w') ->
    fails owner repo number page w 0 e w'
| fails_status page w cfs r w' :
    ListFiles owner repo number {| Page := page; PerPage := 100 |} w
    = ((cfs, Some r, None), w') ->
    StatusCode r <> 200 ->
    fails owner repo number page w 0
      ("Unable to get changed files. Status code: " +:+ Status r) w'
| fails_later page w cfs r w' k e w'' :
    ListFiles owner repo number {| Page := page; PerPage := 100 |} w
    = ((cfs, Some r, None), w') ->
    StatusCode r = 200 ->
    Forall counted cfs ->
    NextPage r <> 0 ->
    fails owner repo number (NextPage r) w' k e w'' ->
    fails owner repo number page w (S k) e w''.

End Listing.

(** In the calls [t], a label is added to a pull request only after the
    removal of every label of [labels] from that pull request has been
    asked for. *)
Definition removal_first (labels : gset string) (t : list Call) : Prop :=
  forall pre owner repo number new post,
    t = pre ++ CallAddLabels owner repo number new :: post ->
    forall k, k ∈ labels -> CallRemoveLabel owner repo number k ∈ pre.

(** A computation that makes no call of the kind [bad]. *)
Definition avoids {W A} (bad : Call -> bool) (m : M W A) : Prop :=
  forall w, Forall (fun c => bad c = false) (calls_of (m w)).

(** A computation whose calls keep [removal_first]. *)
Definition orderly {W A} (labels : gset string) (m : M W A) : Prop :=
  forall w, removal_first labels (calls_of (m w)).

(** The actions the specification lists, and the ones [processHook]
    compares with. *)
Definition specActions : list string := ["opened"; "synchronized"; "reopened"].
Definition codeActions : list string := ["opened"; "synchronize"; "reopened"].

(** The request carries no header of that name: none of its header names
    has the canonical form of [key]. *)
Definition absent (key : string) (hs : list (string * string)) : Prop :=
  CanonicalMIMEHeaderKey key ∉ CanonicalMIMEHeaderKey <$> hs.*1.

(** The byte [c] occurs in [s]. *)
Fixpoint has_byte (c : ascii) (s : string) : bool :=
  match s with
  | EmptyString => false
  | String c' rest => Ascii.eqb c' c || has_byte c rest
  end.

Section Delivery.

Context {W : Type} {gh : GitHub W}.

(** An authenticated pull_request event for the configured repository:
    the signature header is the signature of the body under the shared
    secret, the event header says pull_request, the body parses to
    [payload], the full name of its repository is [r0/r1], and the
    configured name is [r0] alone or [r0/r1]. *)
Record accepted (cfg : Config) (req : Request) (body : list byte)
  (payload : PullRequestEvent) (r0 r1 : string) : Prop := {
  acc_signature :
    GetHeader (Headers req) "X-Hub-Signature" = sign (sharedSecret cfg) body;
  acc_body : Body req = Some body;
  acc_event : GetHeader (Headers req) "X-GitHub-Event" = "pull_request";
  acc_parsed : ParseWebHook "pull_request" body = inl (PullRequest payload);
  acc_repository :
    exists repository fullName rest,
      Repo payload = Some repository
      /\ FullName repository = Some fullName
      /\ Split fullName "/" = r0 :: r1 :: rest;
  acc_configured :
    Split (repoOrOrgName cfg) "/" = [r0]
    \/ exists more, Split (repoOrOrgName cfg) "/" = r0 :: r1 :: more
}.

(** [processHook] from "Get changes" on: aggregation, then
    reconciliation, and the reply. *)
Definition sizeAndLabel (ro : RangeOrders) (fuel : nat) (r0 r1 : string)
  (number : Z) : M W Reply :=
  let* (changes, err) := readPaginatedFileChanges fuel r0 r1 number in
  match err with
  | Some _ => ret (JSON StatusBadRequest "Error reading PR changes")
  | None =>
      let* (label, err) := updateLabel ro r0 r1 number changes in
      match err with
      | Some _ =>
          ret (JSON StatusInternalServerError "Error processing request (1)")
      | None => ret (JSON StatusOK "Success")
      end
  end.

End Delivery.

(** A delivery to run: the repository acme/widget, pull request 7, bodies
    that stand for the JSON payloads, the parser knowing each of them. *)
Module Fixture.

Definition cfg : Config :=
  {| sharedSecret := "s3cret";
     repoOrOrgName := "acme/widget";
     ghToken := "t0ken" |}.

Definition payload (fullName action : string) : PullRequestEvent :=
  {| Action := Some action;
     Number := Some 7;
     Repo := Some {| FullName := Some fullName |} |}.

Definition text (fullName action : string) : string :=
  fullName +:+ " " +:+ action.

Definition known : list (string * PullRequestEvent) :=
  [ (text "acme/widget" "opened", payload "acme/widget" "opened");
    (text "acme/widget" "synchronize", payload "acme/widget" "synchronize");
    (text "acme/widget" "synchronized",
     payload "acme/widget" "synchronized");
    (text "acme/widget" "labeled", payload "acme/widget" "labeled");
    (text "acme" "opened", payload "acme" "opened") ].

Definition body (fullName action : string) : list byte :=
  list_byte_of_string (text fullName action).

Definition request (secret fullName action : string) : Request :=
  {| Headers :=
       [ ("X-Hub-Signature", sign secret (body fullName action));
         ("X-GitHub-Event", "pull_request") ];
     Body := Some (body fullName action) |}.

Definition orders : RangeOrders :=
  {| removeOrder := defaultEntries; addOrder := rev defaultEntries |}.

Definition file (changes : Z) : CommitFile := {| Changes := Some changes |}.

End Fixture.

(** ** Names for the further properties *)

(** A request whose signature header is the signature of its readable
    body under the shared secret. *)
Record signed (cfg : Config) (req : Request) (body : list byte) : Prop := {
  signed_signature :
    GetHeader (Headers req) "X-Hub-Signature" = sign (sharedSecret cfg) body;
  signed_body : Body req = Some body
}.

(** The call is made about that pull request (a parse is about none). *)
Definition addressed (owner repo : string) (number : Z) (c : Call) : Prop :=
  match c with
  | CallParseWebHook _ _ => True
  | CallListFiles o r n _ | CallRemoveLabel o r n _ | CallAddLabels o r n _ =>
      o = owner /\ r = repo /\ n = number
  end.

(** The call lists files, a page of 100 at a time. *)
Definition lists_files (c : Call) : Prop :=
  match c with
  | CallListFiles _ _ _ opts => PerPage opts = 100
  | _ => False
  end.

(** The call is one [updateLabel] may make for the table it ranges over:
    the removal of a key of the first range, or the addition of one key of
    the second range whose bounds hold the count. *)
Definition reconciles (ro : RangeOrders) (changes : Z) (c : Call) : Prop :=
  match c with
  | CallRemoveLabel _ _ _ k => k ∈ (removeOrder ro).*1
  | CallAddLabels _ _ _ new =>
      exists k v, new = [k] /\ (k, v) ∈ addOrder ro
                  /\ Min v <= int64 changes <= Max v
  | _ => False
  end.

(** Every call of the computation satisfies [P]. *)
Definition all_calls {W A} (P : Call -> Prop) (m : M W A) : Prop :=
  forall w, Forall P (calls_of (m w)).

(** What a computation can end with: a value in [P], a panic in [Q], or
    the fuel running out. *)
Definition ends_in {W A} (P : A -> Prop) (Q : panic -> Prop) (m : M W A)
  : Prop :=
  forall w,
    match outcome_of (m w) with
    | Done a => P a
    | Panic p => Q p
    | OutOfFuel => True
    end.

(** The statuses [processHook] writes, and the panics it can raise. *)
Definition handlerStatus (r : Reply) : Prop :=
  Code r = StatusOK \/ Code r = StatusBadRequest \/ Code r = StatusForbidden
  \/ Code r = StatusInternalServerError.

Definition handlerPanic (p : panic) : Prop :=
  p = NilDereference \/ p = IndexOutOfRange 1 1 \/ p = InterfaceConversion.

(** The label of the default table by thresholds. *)
Definition bucket (c : Z) : option string :=
  if c <? 0 then None
  else if c <=? 9 then Some "size/XS"
  else if c <=? 29 then Some "size/S"
  else if c <=? 99 then Some "size/M"
  else if c <=? 499 then Some "size/L"
  else if c <=? 999 then Some "size/XL"
  else Some "size/XXL".

(** A lowercase hexadecimal digit. *)
Definition lower_hex (c : ascii) : Prop :=
  In c (list_ascii_of_string "0123456789abcdef").

(** An upstream whose listing never ends: every page holds one file and
    signals a next page. *)
Module Endless.

Definition listFiles (_ _ : string) (_ : Z) (opts : ListOptions) (calls : nat)
  : (list CommitFile * option Response * option error) * nat :=
  (([{| Changes := Some 1 |}],
    Some {| StatusCode := 200; Status := "200 OK";
            NextPage := Z.max 1 (Page opts) + 1 |},
    None), S calls).

Definition client : GitHub nat :=
  {| ParseWebHook := fun _ _ => inr "unexpected end of JSON input";
     ListFiles := listFiles;
     RemoveLabelForIssue := fun _ _ _ _ calls =>
       ((None, Some Scripted.refused), S calls);
     AddLabelsToIssue := fun _ _ _ _ calls =>
       (([], None, Some Scripted.refused), S calls) |}.

End Endless.

(** Deliveries whose payloads lack a field, and requests built by hand. *)
Module Incomplete.

Definition known : list (string * PullRequestEvent) :=
  [ ("no repository",
     {| Action := Some "opened"; Number := Some 7; Repo := None |});
    ("no action",
     {| Action := None; Number := Some 7;
        Repo := Some {| FullName := Some "acme/widget" |} |}) ].

Definition request (event text : string) : Request :=
  {| Headers :=
       [ ("X-Hub-Signature", sign "s3cret" (list_byte_of_string text));
         ("X-GitHub-Event", event) ];
     Body := Some (list_byte_of_string text) |}.

Definition configured (name : string) : Config :=
  {| sharedSecret := "s3cret"; repoOrOrgName := name; ghToken := "t0ken" |}.

Definition notFound : Scripted.answer :=
  Scripted.Removed (Scripted.status 404 "404 Not Found")
                   (Some "404 Not Found").

End Incomplete.

(** * Properties *)

(** ** The standard library functions compute what they should *)

Example sha1_abc :
  Crypto.sprintf_x (map Crypto.Z_to_byte
     (Crypto.sha1_Z (map Crypto.byte_to_Z (list_byte_of_string "abc"))))
  = "a9993e364706816aba3e25717850c26c9cd0d89d".
Proof. vm_compute. reflexivity. Qed.

(** Test case 2 of RFC 2202. *)
Example hmac_sha1_rfc2202 :
  Crypto.sprintf_x
    (Crypto.hmac_sha1 (list_byte_of_string "Jefe")
                      (list_byte_of_string "what do ya want for nothing?"))
  = "effcdf6ae5eb2fa2d27416d5f184df9c259a7c79".
Proof. vm_compute. reflexivity. Qed.

Example Split_full_name :
  Split "acme/widget" "/" = ["acme"; "widget"]
  /\ Split "acme" "/" = ["acme"]
  /\ Split "" "/" = [""]
  /\ Split "a//b/" "/" = ["a"; ""; "b"; ""].
Proof. repeat split. Qed.

Example CanonicalMIMEHeaderKey_names :
  CanonicalMIMEHeaderKey "X-Hub-Signature" = "X-Hub-Signature"
  /\ CanonicalMIMEHeaderKey "x-hub-signature" = "X-Hub-Signature"
  /\ CanonicalMIMEHeaderKey "X-GitHub-Event" = "X-Github-Event"
  /\ CanonicalMIMEHeaderKey "x-github-event" = "X-Github-Event"
  /\ CanonicalMIMEHeaderKey "x hub" = "x hub".
Proof. repeat split. Qed.

(** ** SignatureValidator *)

Section SignatureValidator.

Import Crypto.

Lemma byte_to_Z_range b : 0 <= byte_to_Z b < 2 ^ 8.
Proof.
  unfold byte_to_Z. pose proof (Byte.to_N_bounded b) as Hb.
  change (2 ^ 8) with 256. lia.
Qed.

Lemma byte_to_Z_inj a b : byte_to_Z a = byte_to_Z b -> a = b.
Proof.
  unfold byte_to_Z. intros H%N2Z.inj.
  assert (Some a = Some b) as Hs; [|congruence].
  by rewrite <- (Byte.of_to_N a), <- (Byte.of_to_N b), H.
Qed.

Lemma lor_byte v d :
  0 <= v < 2 ^ 8 -> 0 <= d < 2 ^ 8 -> 0 <= Z.lor v d < 2 ^ 8.
Proof.
  intros Hv Hd.
  assert (0 <= Z.lor v d) as Hn by (apply Z.lor_nonneg; lia).
  apply Z.bounded_iff_bits_nonneg'; [lia | done |].
  intros l Hl. rewrite Z.lor_spec.
  rewrite (proj1 (Z.bounded_iff_bits_nonneg' 8 v ltac:(lia) ltac:(lia)) Hv l Hl).
  by rewrite (proj1 (Z.bounded_iff_bits_nonneg' 8 d ltac:(lia) ltac:(lia)) Hd l Hl).
Qed.

Lemma lxor_byte v d :
  0 <= v < 2 ^ 8 -> 0 <= d < 2 ^ 8 -> 0 <= Z.lxor v d < 2 ^ 8.
Proof.
  intros Hv Hd.
  assert (0 <= Z.lxor v d) as Hn by (apply Z.lxor_nonneg; lia).
  apply Z.bounded_iff_bits_nonneg'; [lia | done |].
  intros l Hl. rewrite Z.lxor_spec.
  rewrite (proj1 (Z.bounded_iff_bits_nonneg' 8 v ltac:(lia) ltac:(lia)) Hv l Hl).
  by rewrite (proj1 (Z.bounded_iff_bits_nonneg' 8 d ltac:(lia) ltac:(lia)) Hd l Hl).
Qed.

Lemma xor_accumulate_range x : forall y v,
  0 <= v < 2 ^ 8 -> 0 <= xor_accumulate v x y < 2 ^ 8.
Proof.
  induction x as [|a x IH]; intros [|b y] v Hv; simpl; try done.
  apply IH, lor_byte; [done|].
  apply lxor_byte; apply byte_to_Z_range.
Qed.

Lemma xor_accumulate_zero x : forall y v,
  length x = length y ->
  xor_accumulate v x y = 0 <-> v = 0 /\ x = y.
Proof.
  induction x as [|a x IH]; intros [|b y] v Hlen; simpl in *; try done.
  - split; [done | by intros [? _]].
  - rewrite IH by congruence.
    rewrite Z.lor_eq_0_iff, Z.lxor_eq_0_iff. split.
    + intros [[-> Hab%byte_to_Z_inj] ->]. by subst.
    + intros [-> [= -> ->]]. done.
Qed.

Lemma ConstantTimeByteEq_zero v :
  0 <= v < 2 ^ 8 -> ConstantTimeByteEq v 0 = 1 <-> v = 0.
Proof.
  intros Hv. unfold ConstantTimeByteEq, u32.
  rewrite Z.lxor_0_r, Z.shiftr_div_pow2 by lia.
  destruct (decide (v = 0)) as [->|Hne].
  - split; [done|]. intros _. reflexivity.
  - rewrite (Z.mod_small (v - 1)) by lia.
    rewrite Z.div_small by lia. split; [done | lia].
Qed.

Lemma ConstantTimeCompare_spec x y :
  ConstantTimeCompare x y = 1 <-> x = y.
Proof.
  unfold ConstantTimeCompare.
  destruct (Nat.eqb_spec (length x) (length y)) as [Hlen|Hlen]; simpl.
  - rewrite ConstantTimeByteEq_zero by (apply xor_accumulate_range; lia).
    rewrite xor_accumulate_zero by done.
    split; [by intros [_ ?] | done].
  - split; [done|]. intros ->. done.
Qed.

Lemma list_byte_of_string_inj s t :
  list_byte_of_string s = list_byte_of_string t -> s = t.
Proof.
  intros H.
  by rewrite <- (string_of_list_byte_of_string s),
             <- (string_of_list_byte_of_string t), H.
Qed.

Lemma validateSig_spec cfg sig body :
  validateSig cfg sig body = None <-> sig = sign (sharedSecret cfg) body.
Proof.
  unfold validateSig, sign.
  destruct (Z.eqb_spec
    (ConstantTimeCompare
       (list_byte_of_string
          ("sha1=" +:+ sprintf_x
             (hmac_sha1 (list_byte_of_string (sharedSecret cfg)) body)))
       (list_byte_of_string sig)) 1) as [Heq|Hne]; simpl.
  - apply ConstantTimeCompare_spec, list_byte_of_string_inj in Heq.
    by split.
  - split; [done|]. intros ->. destruct Hne.
    by apply ConstantTimeCompare_spec.
Qed.

(** C5.  For every shared secret and body, [validateSig] accepts the
    signature [sign s b], the string "sha1=" followed by the lowercase
    hexadecimal HMAC-SHA1 of the body under the secret, and rejects every
    other signature string. *)
Theorem validateSig_accepts_exactly_sign cfg body :
  validateSig cfg (sign (sharedSecret cfg) body) body = None
  /\ forall sig,
       sig <> sign (sharedSecret cfg) body ->
       validateSig cfg sig body = Some "payload signature check failed".
Proof.
  split; [by apply validateSig_spec|].
  intros sig Hne.
  destruct (validateSig cfg sig body) as [e|] eqn:Hv.
  - unfold validateSig in Hv.
    by destruct (negb _) in Hv; simplify_eq.
  - by apply validateSig_spec in Hv.
Qed.

End SignatureValidator.

(** ** SizeClassifier *)

(** Case analysis on an entry of the default table. *)
Ltac entries H :=
  unfold defaultEntries in H;
  repeat (apply elem_of_cons in H as [H|H]; [injection H as -> ->|]);
  [..|by apply elem_of_nil in H].

Section SizeClassifier.

Lemma int64_small c : - 2 ^ 63 <= c < 2 ^ 63 -> int64 c = c.
Proof. intros Hc. unfold int64. rewrite Z.mod_small; lia. Qed.

Lemma int_small c : - 2 ^ 63 <= c < 2 ^ 63 -> int c = c.
Proof. intros Hc. unfold int. rewrite Z.mod_small; lia. Qed.

Lemma defaultEntries_NoDup : NoDup defaultEntries.*1.
Proof. apply (bool_decide_unpack _). vm_compute. reflexivity. Qed.

Lemma defaultSizes_entries : map_to_list defaultSizes ≡ₚ defaultEntries.
Proof. apply map_to_list_to_map, defaultEntries_NoDup. Qed.

Lemma defaultSizes_lookup k v :
  defaultSizes !! k = Some v <-> (k, v) ∈ defaultEntries.
Proof.
  unfold defaultSizes. symmetry.
  apply elem_of_list_to_map, defaultEntries_NoDup.
Qed.

Lemma ranges_over_default order :
  ranges_over defaultSizes order <-> order ≡ₚ defaultEntries.
Proof. unfold ranges_over. by rewrite defaultSizes_entries. Qed.

Lemma sizeLabels_keys : sizeLabels = list_to_set defaultEntries.*1.
Proof. unfold sizeLabels, defaultSizes. by rewrite dom_list_to_map_L. Qed.

(** The loop returns the one label in range, wherever it stands. *)
Lemma selected_the_only c k order :
  (exists v, (k, v) ∈ order /\ Min v <= int64 c <= Max v) ->
  (forall k' v', (k', v') ∈ order ->
                 Min v' <= int64 c <= Max v' -> k' = k) ->
  selected c order = Some k.
Proof.
  induction order as [|[k0 v0] order IH]; intros (v & Hin & Hv) Huniq.
  - by apply elem_of_nil in Hin.
  - simpl.
    destruct (Z.leb_spec (Min v0) (int64 c));
      destruct (Z.leb_spec (int64 c) (Max v0)); simpl;
      try (f_equal; apply (Huniq k0 v0); [left | lia]).
    all: apply IH; [|intros; eapply Huniq; [by right | done]].
    all: apply elem_of_cons in Hin as [[= -> ->]|Hin]; [lia | eauto].
Qed.

Lemma selected_none c order :
  (forall k v, (k, v) ∈ order -> ~ Min v <= int64 c <= Max v) ->
  selected c order = None.
Proof.
  induction order as [|[k0 v0] order IH]; intros Hno; [done|]. simpl.
  destruct (Z.leb_spec (Min v0) (int64 c));
    destruct (Z.leb_spec (int64 c) (Max v0)); simpl;
    try (apply IH; intros k v Hin; apply (Hno k v); by right).
  destruct (Hno k0 v0); [left | lia].
Qed.

(** Exactly one range of the default table holds a count of [0] to
    [MaxInt64]. *)
Lemma default_bucket c :
  0 <= c <= MaxInt64 ->
  exists k v,
    (k, v) ∈ defaultEntries /\ Min v <= c <= Max v
    /\ forall k' v', (k', v') ∈ defaultEntries ->
                     Min v' <= c <= Max v' -> k' = k.
Proof.
  unfold MaxInt64. intros Hc.
  assert (c <= 9 \/ 10 <= c <= 29 \/ 30 <= c <= 99 \/ 100 <= c <= 499
          \/ 500 <= c <= 999 \/ 1000 <= c) as Hcase by lia.
  destruct Hcase as [H|[H|[H|[H|[H|H]]]]];
    [exists "size/XS", {| Min := 0; Max := 9 |}
    |exists "size/S", {| Min := 10; Max := 29 |}
    |exists "size/M", {| Min := 30; Max := 99 |}
    |exists "size/L", {| Min := 100; Max := 499 |}
    |exists "size/XL", {| Min := 500; Max := 999 |}
    |exists "size/XXL", {| Min := 1000; Max := MaxInt64 |}].
  all: split;
    [unfold defaultEntries;
     repeat first [left | right]|].
  all: split; [unfold MaxInt64; simpl; lia|].
  all: intros k' v' Hin Hr; entries Hin; unfold MaxInt64 in Hr;
    simpl in Hr; solve [reflexivity | lia].
Qed.

Lemma selected_default c order :
  0 <= c <= MaxInt64 ->
  ranges_over defaultSizes order ->
  exists k v, (k, v) ∈ defaultEntries /\ Min v <= c <= Max v
              /\ selected c order = Some k.
Proof.
  intros Hc Hord%ranges_over_default.
  destruct (default_bucket c Hc) as (k & v & Hin & Hv & Huniq).
  exists k, v. split; [done|]. split; [done|].
  assert (int64 c = c) as Hi by (apply int64_small; unfold MaxInt64 in Hc; lia).
  apply selected_the_only.
  - exists v. rewrite Hi. split; [by rewrite Hord | done].
  - intros k' v'. rewrite Hi, Hord. apply Huniq.
Qed.

(** C3.  In the default table every count from [0] to [MaxInt64] lies
    in the inclusive range of exactly one label, and the loop selects that
    label in whatever order it ranges over the table; 9 gives size/XS, 10
    gives size/S and 47 gives size/M. *)
Theorem default_table_selects_exactly_one_label :
  (forall c, 0 <= c <= MaxInt64 ->
     exists k,
       (exists v, defaultSizes !! k = Some v /\ Min v <= c <= Max v)
       /\ (forall k' v, defaultSizes !! k' = Some v ->
                        Min v <= c <= Max v -> k' = k)
       /\ (forall order, ranges_over defaultSizes order ->
                         selected c order = Some k))
  /\ (forall order, ranges_over defaultSizes order ->
        selected 9 order = Some "size/XS"
        /\ selected 10 order = Some "size/S"
        /\ selected 47 order = Some "size/M").
Proof.
  assert (forall c, 0 <= c <= MaxInt64 ->
     exists k,
       (exists v, defaultSizes !! k = Some v /\ Min v <= c <= Max v)
       /\ (forall k' v, defaultSizes !! k' = Some v ->
                        Min v <= c <= Max v -> k' = k)
       /\ (forall order, ranges_over defaultSizes order ->
                         selected c order = Some k)) as Hall.
  { intros c Hc.
    destruct (default_bucket c Hc) as (k & v & Hin & Hv & Huniq).
    exists k. split; [|split].
    - exists v. by rewrite defaultSizes_lookup.
    - intros k' v' Hl%defaultSizes_lookup. by apply Huniq.
    - intros order Hord.
      destruct (selected_default c order Hc Hord) as (k1 & v1 & H1 & Hv1 & ->).
      f_equal. by apply (Huniq k1 v1). }
  split; [done|].
  intros order Hord.
  assert (forall c k v, 0 <= c <= MaxInt64 ->
            defaultSizes !! k = Some v -> Min v <= c <= Max v ->
            selected c order = Some k) as Hsel.
  { intros c k v Hc Hl Hv.
    destruct (Hall c Hc) as (k0 & _ & Huniq & Hs).
    rewrite (Huniq k v Hl Hv). by apply Hs. }
  split; [|split].
  - apply (Hsel 9 "size/XS" {| Min := 0; Max := 9 |});
      [unfold MaxInt64; lia | by vm_compute | simpl; lia].
  - apply (Hsel 10 "size/S" {| Min := 10; Max := 29 |});
      [unfold MaxInt64; lia | by vm_compute | simpl; lia].
  - apply (Hsel 47 "size/M" {| Min := 30; Max := 99 |});
      [unfold MaxInt64; lia | by vm_compute | simpl; lia].
Qed.

End SizeClassifier.


(** ** ChangeAggregator *)

Section ChangeAggregator.

Context {W : Type} {gh : GitHub W}.

Lemma int_add_l a b : int (int a + b) = int (a + b).
Proof.
  unfold int. f_equal.
  replace ((a + 2 ^ 63) mod 2 ^ 64 - 2 ^ 63 + b + 2 ^ 63)
    with ((a + 2 ^ 63) mod 2 ^ 64 + b) by lia.
  rewrite Zplus_mod_idemp_l. f_equal. lia.
Qed.

Lemma int_idem a : int (int a) = int a.
Proof.
  pose proof (int_add_l a 0) as H. by rewrite !Z.add_0_r in H.
Qed.

Lemma sumChanges_counted cfs : forall changes (w : W),
  Forall counted cfs ->
  int changes = changes ->
  sumChanges cfs changes w
  = (Done (int (changes + foldr (fun cf acc => changesOf cf + acc) 0 cfs)),
     w, []).
Proof.
  induction cfs as [|cf cfs IH]; intros changes w Hall Hch; simpl.
  - unfold ret. by rewrite Z.add_0_r, Hch.
  - apply Forall_cons in Hall as [[c Hc] Hall].
    unfold bind. rewrite Hc. simpl.
    rewrite IH by (done || apply int_idem). simpl.
    rewrite int_add_l. unfold changesOf. rewrite Hc. simpl.
    by rewrite Z.add_assoc.
Qed.

Lemma sum_from cfs : forall z,
  foldr (fun cf acc => changesOf cf + acc) z cfs
  = foldr (fun cf acc => changesOf cf + acc) 0 cfs + z.
Proof.
  induction cfs as [|cf cfs IH]; intros z; simpl; [done|].
  rewrite IH. lia.
Qed.

Lemma totalChanges_cons page cfs pages :
  totalChanges ((page, cfs) :: pages)
  = foldr (fun cf acc => changesOf cf + acc) 0 cfs + totalChanges pages.
Proof.
  unfold totalChanges. rewrite fmap_cons. simpl.
  rewrite foldr_app. apply sum_from.
Qed.

Lemma readPages_serves owner repo number page w pages w' :
  serves owner repo number page w pages w' ->
  Forall (Forall counted) pages.*2 ->
  forall fuel changes,
    (length pages <= fuel)%nat ->
    int changes = changes ->
    readPages fuel owner repo number {| Page := page; PerPage := 100 |}
      changes w
    = (Done (int (changes + totalChanges pages), None), w',
       listingCalls owner repo number pages).
Proof.
  induction 1 as [page w cfs r w' Hl Hs Hn
                 |page w cfs r w' pages w'' Hl Hs Hn Hrest IH];
    intros Hall fuel changes Hfuel Hch;
    (destruct fuel as [|fuel]; [simpl in Hfuel; lia|]);
    apply Forall_cons in Hall as [Hcfs Hall]; simpl in Hcfs |- *.
  - unfold bind, callListFiles. rewrite Hl. simpl. rewrite Hs. simpl.
    rewrite sumChanges_counted by done. simpl. rewrite Hn. simpl.
    rewrite totalChanges_cons. unfold totalChanges. simpl.
    by rewrite Z.add_0_r.
  - unfold bind at 1, callListFiles. rewrite Hl. simpl.
    unfold bind at 1. simpl. rewrite Hs. simpl.
    unfold bind at 1. rewrite sumChanges_counted by done. simpl.
    destruct (Z.eqb_spec (NextPage r) 0) as [?|_]; [done|].
    rewrite IH; [|done|simpl in Hfuel; lia|apply int_idem].
    by rewrite int_add_l, totalChanges_cons, Z.add_assoc.
Qed.

Lemma readPages_fails owner repo number page w k e w' :
  fails owner repo number page w k e w' ->
  forall fuel changes,
    (k < fuel)%nat ->
    int changes = changes ->
    exists calls,
      readPages fuel owner repo number {| Page := page; PerPage := 100 |}
        changes w
      = (Done (0, Some e), w', calls).
Proof.
  induction 1 as [page w cfs resp e w' Hl
                 |page w cfs r w' Hl Hs
                 |page w cfs r w' k e w'' Hl Hs Hcfs Hn Hrest IH];
    intros fuel changes Hfuel Hch;
    (destruct fuel as [|fuel]; [lia|]); simpl.
  - unfold bind, callListFiles. rewrite Hl. simpl. eauto.
  - unfold bind, callListFiles. rewrite Hl. simpl.
    destruct (Z.eqb_spec (StatusCode r) 200) as [?|_]; [done|]. simpl. eauto.
  - unfold bind at 1, callListFiles. rewrite Hl. simpl.
    unfold bind at 1. simpl. rewrite Hs. simpl.
    unfold bind at 1. rewrite sumChanges_counted by done. simpl.
    destruct (Z.eqb_spec (NextPage r) 0) as [?|_]; [done|].
    destruct (IH fuel (int (changes
                + foldr (fun cf acc => changesOf cf + acc) 0 cfs)))
      as [calls ->]; [lia | apply int_idem |].
    eauto.
Qed.

(** C4.  When the upstream serves the pages of the listing, page size 100,
    each page signalling the next until the last signals none,
    [readPaginatedFileChanges] returns the exact sum of the per-file
    changed-line counts over all the pages, having asked for each page
    once; when a page fails in transport or with a status other than 200 it
    returns the count 0 with the error, whatever the pages before
    held. *)
Theorem readPaginatedFileChanges_exact_sum_or_error
  (owner repo : string) (number : Z) (w : W) :
  (forall pages w',
     serves owner repo number 0 w pages w' ->
     Forall (Forall counted) pages.*2 ->
     - 2 ^ 63 <= totalChanges pages < 2 ^ 63 ->
     forall fuel, (length pages <= fuel)%nat ->
       readPaginatedFileChanges fuel owner repo number w
       = (Done (totalChanges pages, None), w',
          listingCalls owner repo number pages))
  /\ (forall k e w',
        fails owner repo number 0 w k e w' ->
        forall fuel, (k < fuel)%nat ->
          outcome_of (readPaginatedFileChanges fuel owner repo number w)
          = Done (0, Some e)
          /\ world_of (readPaginatedFileChanges fuel owner repo number w)
             = w').
Proof.
  split.
  - intros pages w' Hserves Hall Hrange fuel Hfuel.
    unfold readPaginatedFileChanges.
    rewrite (readPages_serves _ _ _ _ _ _ _ Hserves Hall) by done.
    simpl. by rewrite int_small.
  - intros k e w' Hfails fuel Hfuel.
    unfold readPaginatedFileChanges.
    destruct (readPages_fails _ _ _ _ _ _ _ _ Hfails fuel 0 Hfuel)
      as [calls ->]; done.
Qed.

End ChangeAggregator.


(** ** Computations and their calls *)

Section Calls.

Context {W : Type} {gh : GitHub W}.

Lemma bind_run {A B} (m : M W A) (k : A -> M W B) w a w1 t1 :
  m w = (Done a, w1, t1) ->
  bind m k w = ((k a w1).1.1, (k a w1).1.2, t1 ++ (k a w1).2).
Proof. intros H. unfold bind. rewrite H. by destruct (k a w1) as [[??]?]. Qed.

Lemma calls_bind {A B} (m : M W A) (k : A -> M W B) w :
  calls_of (bind m k w)
  = calls_of (m w)
    ++ match outcome_of (m w) with
       | Done a => calls_of (k a (world_of (m w)))
       | _ => []
       end.
Proof.
  unfold bind, calls_of, outcome_of, world_of.
  destruct (m w) as [[[a|p|] w1] t1]; simpl;
    [by destruct (k a w1) as [[??]?] | by rewrite app_nil_r..].
Qed.

Lemma bind_ret_l {A B} (a : A) (k : A -> M W B) w : bind (ret a) k w = k a w.
Proof. unfold bind, ret. by destruct (k a w) as [[??]?]. Qed.

Lemma bind_done {A B} (m : M W A) (k : A -> M W B) w b w' t :
  bind m k w = (Done b, w', t) ->
  exists a w1 t1 t2,
    m w = (Done a, w1, t1) /\ k a w1 = (Done b, w', t2) /\ t = t1 ++ t2.
Proof.
  unfold bind. destruct (m w) as [[[a|p|] w1] t1]; [|done..].
  destruct (k a w1) as [[o w2] t2] eqn:Hk. intros [= -> -> <-].
  by exists a, w1, t1, t2.
Qed.

Lemma deref_done {A} (p : option A) (w : W) a w' t :
  deref p w = (Done a, w', t) -> p = Some a /\ w' = w /\ t = [].
Proof. destruct p; [|done]. by intros [= -> -> <-]. Qed.

Lemma avoids_ret {A} bad (a : A) : avoids (W := W) bad (ret a).
Proof. intros w. constructor. Qed.

Lemma avoids_throw {A} bad p : avoids (W := W) (A := A) bad (throw p).
Proof. intros w. constructor. Qed.

Lemma avoids_deref {A} bad (p : option A) : avoids (W := W) bad (deref p).
Proof. destruct p; [apply avoids_ret | apply avoids_throw]. Qed.

Lemma avoids_index {A} bad (l : list A) i : avoids (W := W) bad (index l i).
Proof.
  unfold index. destruct (l !! i); [apply avoids_ret | apply avoids_throw].
Qed.

Lemma avoids_asPullRequestEvent bad e :
  avoids (W := W) bad (asPullRequestEvent e).
Proof. destruct e; [apply avoids_throw | apply avoids_ret | apply avoids_throw]. Qed.

Lemma avoids_bind {A B} bad (m : M W A) (k : A -> M W B) :
  avoids bad m -> (forall a, avoids bad (k a)) -> avoids bad (bind m k).
Proof.
  intros Hm Hk w. rewrite calls_bind. apply Forall_app. split; [apply Hm|].
  destruct (outcome_of (m w)); [apply Hk | constructor..].
Qed.

Lemma avoids_callParseWebHook event body :
  avoids is_add (callParseWebHook event body).
Proof. intros w. by repeat constructor. Qed.

Lemma avoids_callListFiles owner repo number opts :
  avoids is_add (callListFiles owner repo number opts).
Proof.
  intros w. unfold callListFiles, calls_of.
  destruct (ListFiles owner repo number opts w). by repeat constructor.
Qed.

Lemma avoids_callRemoveLabel owner repo number k :
  avoids is_add (callRemoveLabel owner repo number k).
Proof.
  intros w. unfold callRemoveLabel, calls_of.
  destruct (RemoveLabelForIssue owner repo number k w).
  by repeat constructor.
Qed.

Lemma avoids_sumChanges bad cfs : forall changes,
  avoids (W := W) bad (sumChanges cfs changes).
Proof.
  induction cfs as [|cf cfs IH]; intros changes; simpl.
  - apply avoids_ret.
  - apply avoids_bind; [apply avoids_deref | intros; apply IH].
Qed.

Lemma avoids_readPages fuel owner repo number : forall opts changes,
  avoids is_add (readPages fuel owner repo number opts changes).
Proof.
  induction fuel as [|fuel IH]; intros opts changes; simpl.
  - intros w. constructor.
  - apply avoids_bind; [apply avoids_callListFiles|].
    intros [[cfs resp] [e|]]; [apply avoids_ret|].
    apply avoids_bind; [apply avoids_deref|]. intros r.
    destruct (negb _); [apply avoids_ret|].
    apply avoids_bind; [apply avoids_sumChanges|]. intros changes'.
    destruct (_ =? _); [apply avoids_ret | apply IH].
Qed.

Lemma avoids_removeLabels owner repo number order :
  avoids is_add (removeLabels owner repo number order).
Proof.
  induction order as [|[k v] order IH]; simpl; [apply avoids_ret|].
  apply avoids_bind; [apply avoids_callRemoveLabel|]. intros [res err].
  apply avoids_bind; [apply avoids_deref|]. intros r.
  destruct (_ =? _); [done|]. destruct err; [apply avoids_ret | done].
Qed.

(** Calls that add nothing keep the order trivially, and may precede
    calls that keep it. *)
Lemma removal_first_no_add labels t :
  Forall (fun c => is_add c = false) t -> removal_first labels t.
Proof.
  intros Hall pre owner repo number new post -> k _.
  apply Forall_app in Hall as [_ Hall].
  by apply Forall_cons in Hall as [? _].
Qed.

Lemma removal_first_app labels t0 t :
  Forall (fun c => is_add c = false) t0 ->
  removal_first labels t -> removal_first labels (t0 ++ t).
Proof.
  induction t0 as [|c0 t0 IH]; intros Hall Ht; [done|].
  apply Forall_cons in Hall as [Hc0 Hall].
  intros [|c pre] owner repo number new post Heq k Hk;
    simpl in Heq; injection Heq as -> Heq; [done|].
  right. by eapply (IH Hall Ht).
Qed.

Lemma orderly_avoids {A} labels (m : M W A) :
  avoids is_add m -> orderly labels m.
Proof. intros Hm w. apply removal_first_no_add, Hm. Qed.

Lemma orderly_bind {A B} labels (m : M W A) (k : A -> M W B) :
  avoids is_add m -> (forall a, orderly labels (k a)) ->
  orderly labels (bind m k).
Proof.
  intros Hm Hk w. rewrite calls_bind.
  apply removal_first_app; [apply Hm|].
  destruct (outcome_of (m w)); [apply Hk | by apply removal_first_no_add..].
Qed.

Lemma orderly_bind_last {A B} labels (m : M W A) (k : A -> M W B) :
  orderly labels m -> (forall a w, calls_of (k a w) = []) ->
  orderly labels (bind m k).
Proof.
  intros Hm Hk w. rewrite calls_bind.
  destruct (outcome_of (m w)); rewrite ?Hk, app_nil_r; apply Hm.
Qed.

End Calls.

(** ** LabelReconciler *)

Section LabelReconciler.

Context {W : Type} {gh : GitHub W}.

(** A removal pass that got through has asked for every label, in the
    order of the range. *)
Lemma removeLabels_done_calls owner repo number order : forall w w' t,
  removeLabels owner repo number order w = (Done None, w', t) ->
  t = map (CallRemoveLabel owner repo number) order.*1.
Proof.
  induction order as [|[k v] order IH]; intros w w' t; simpl.
  - by intros [= _ <-].
  - intros ([res err] & w1 & t1 & t2 & Hcall & Hk & ->)%bind_done.
    unfold callRemoveLabel in Hcall.
    destruct (RemoveLabelForIssue owner repo number k w) as [re w0].
    injection Hcall as -> -> <-.
    apply bind_done in Hk as (r & w2 & t3 & t4 & Hr & Hk & ->).
    apply deref_done in Hr as (-> & -> & ->). simpl. f_equal.
    destruct (StatusCode r =? 404); [by eapply IH|].
    destruct err as [e|]; [done | by eapply IH].
Qed.

(** The second loop adds the selected label, if there is one, and makes
    no other call. *)
Lemma addLabel_selected owner repo number changes order : forall w,
  addLabel owner repo number changes order w
  = match selected changes order with
    | None => (Done ("", None), w, [])
    | Some k =>
        (Done (k, (AddLabelsToIssue owner repo number [k] w).1.2),
         (AddLabelsToIssue owner repo number [k] w).2,
         [CallAddLabels owner repo number [k]])
    end.
Proof.
  induction order as [|[k v] order IH]; intros w; simpl; [done|].
  destruct (_ && _); [|apply IH].
  unfold bind, callAddLabels.
  destruct (AddLabelsToIssue owner repo number [k] w)
    as [[[ls resp] [e|]] w1]; done.
Qed.

Lemma last_add t1 : forall a pre c post,
  Forall (fun c => is_add c = false) t1 ->
  is_add c = true ->
  t1 ++ [a] = pre ++ c :: post ->
  pre = t1 /\ c = a.
Proof.
  induction t1 as [|x t1 IH]; intros a [|c0 pre] c post Hall Hc Heq;
    simpl in Heq.
  - by injection Heq as -> _.
  - injection Heq as _ Heq. by destruct pre.
  - injection Heq as -> _. apply Forall_cons in Hall as [Hx _]. congruence.
  - injection Heq as <- Heq. apply Forall_cons in Hall as [_ Hall].
    destruct (IH _ _ _ _ Hall Hc Heq) as [-> ->]. done.
Qed.

Lemma updateLabel_orderly ro owner repo number changes :
  orderly (list_to_set (removeOrder ro).*1)
          (updateLabel ro owner repo number changes).
Proof.
  intros w. unfold updateLabel. rewrite calls_bind.
  pose proof (avoids_removeLabels owner repo number (removeOrder ro) w)
    as Hquiet.
  destruct (removeLabels owner repo number (removeOrder ro) w)
    as [[[[e|]|p|] w1] t1] eqn:Hrun;
    unfold outcome_of, world_of, calls_of in *; simpl in *;
    try (apply removal_first_app; [done|];
         by apply removal_first_no_add).
  rewrite addLabel_selected.
  destruct (selected changes (addOrder ro)) as [k|]; simpl;
    [|apply removal_first_app; [done | by apply removal_first_no_add]].
  intros pre owner' repo' number' new post Heq k' Hk'.
  apply last_add in Heq as [-> [= -> -> -> ->]]; [|done..].
  rewrite (removeLabels_done_calls _ _ _ _ _ _ _ Hrun).
  apply list_elem_of_fmap. exists k'. split; [done|].
  by apply elem_of_list_to_set in Hk'.
Qed.

Lemma range_keys (sizes : gmap string Size) order :
  ranges_over sizes order -> list_to_set order.*1 = dom sizes.
Proof.
  intros Hord. apply set_eq. intros k.
  rewrite elem_of_list_to_set, elem_of_dom, list_elem_of_fmap. split.
  - intros ([k' v] & -> & Hin). exists v.
    apply elem_of_map_to_list. by rewrite <- Hord.
  - intros [v Hv]. exists (k, v). split; [done|].
    rewrite Hord. by apply elem_of_map_to_list.
Qed.

Create HintDb avoid.

Local Hint Resolve avoids_ret avoids_throw avoids_deref avoids_index
  avoids_asPullRequestEvent
  avoids_callParseWebHook avoids_readPages : avoid.

Ltac orderly_step :=
  lazymatch goal with
  | |- orderly _ (ret _) => apply orderly_avoids, avoids_ret
  | |- orderly _ (bind (updateLabel _ _ _ _ _) _) =>
      apply orderly_bind_last;
      [apply updateLabel_orderly | by intros [? [?|]] ?]
  | |- orderly _ (bind (if ?b then _ else _) _) => destruct b
  | |- orderly _ (bind _ _) =>
      apply orderly_bind;
      [first [apply avoids_readPages
             |apply avoids_bind; [auto with avoid|intros ?]
             |auto with avoid]
      | intros ?]
  | |- avoids _ (bind _ _) => apply avoids_bind; [auto with avoid|intros ?]
  | |- avoids _ _ => auto with avoid
  | |- orderly _ (if ?b then _ else _) => destruct b
  | |- orderly _ (match ?x with _ => _ end) => destruct x
  end.

Lemma processHook_orderly cfg ro fuel req :
  orderly (list_to_set (removeOrder ro).*1) (processHook cfg ro fuel req).
Proof.
  unfold processHook, readPaginatedFileChanges. cbv zeta.
  repeat orderly_step.
Qed.

Lemma removeLabels_app owner repo number l2 l1 : forall w w1 t1,
  removeLabels owner repo number l1 w = (Done None, w1, t1) ->
  removeLabels owner repo number (l1 ++ l2) w
  = ((removeLabels owner repo number l2 w1).1.1,
     (removeLabels owner repo number l2 w1).1.2,
     t1 ++ (removeLabels owner repo number l2 w1).2).
Proof.
  induction l1 as [|[k v] l1 IH]; intros w w1 t1; simpl.
  - intros [= -> <-]. by destruct (removeLabels _ _ _ l2 w1) as [[??]?].
  - intros ([res err] & wa & ta & t2 & Hcall & Hk & ->)%bind_done.
    apply bind_done in Hk as (r & wb & tb & t3 & Hr & Hk & ->).
    apply deref_done in Hr as (-> & -> & ->).
    rewrite (bind_run _ _ _ _ _ _ Hcall). simpl. rewrite bind_ret_l.
    assert (removeLabels owner repo number l1 wa = (Done None, w1, t3))
      as Hrest.
    { destruct (StatusCode r =? 404); [done|]. by destruct err. }
    assert ((if StatusCode r =? 404
             then removeLabels owner repo number (l1 ++ l2)
             else match err with
                  | Some e => ret (Some e)
                  | None => removeLabels owner repo number (l1 ++ l2)
                  end) wa
            = removeLabels owner repo number (l1 ++ l2) wa) as ->.
    { destruct (StatusCode r =? 404); [done|].
      destruct err; [|done].
      destruct (StatusCode r =? 404); simplify_eq. }
    rewrite (IH _ _ _ Hrest). simpl. by rewrite app_assoc.
Qed.

(** C6.  In the calls of a delivery no label is added to a pull request
    before the removal of every size label of the table has been asked for;
    and when no range of the table holds the change count, [updateLabel]
    adds no label, and once its removal pass over every size label is
    through it returns the empty label with no error. *)
Theorem no_label_added_before_the_removal_pass
  (sizes : gmap string Size) (cfg : Config) (ro : RangeOrders) (fuel : nat)
  (req : Request) (w : W)
  (owner repo : string) (number changes : Z) (w0 : W) :
  ranges_over sizes (removeOrder ro) ->
  ranges_over sizes (addOrder ro) ->
  removal_first (dom sizes) (calls_of (processHook cfg ro fuel req w))
  /\ ((forall k v, sizes !! k = Some v ->
                   ~ Min v <= int64 changes <= Max v) ->
      Forall (fun c => is_add c = false)
             (calls_of (updateLabel ro owner repo number changes w0))
      /\ forall w1 t1,
           removeLabels owner repo number (removeOrder ro) w0
           = (Done None, w1, t1) ->
           updateLabel ro owner repo number changes w0
           = (Done ("", None), w1,
              map (CallRemoveLabel owner repo number) (removeOrder ro).*1)
           /\ forall k, k ∈ dom sizes ->
                CallRemoveLabel owner repo number k
                ∈ calls_of (updateLabel ro owner repo number changes w0)).
Proof.
  intros Hrm Hadd. split.
  - rewrite <- (range_keys sizes _ Hrm). apply processHook_orderly.
  - intros Hnone.
    assert (selected changes (addOrder ro) = None) as Hsel.
    { apply selected_none. intros k v Hin. apply (Hnone k v).
      apply elem_of_map_to_list. by rewrite <- Hadd. }
    assert (forall w1 t1,
              removeLabels owner repo number (removeOrder ro) w0
              = (Done None, w1, t1) ->
              updateLabel ro owner repo number changes w0
              = (Done ("", None), w1,
                 map (CallRemoveLabel owner repo number)
                     (removeOrder ro).*1)) as Hdone.
    { intros w1 t1 Hrun. unfold updateLabel.
      rewrite (bind_run _ _ _ _ _ _ Hrun), addLabel_selected, Hsel. simpl.
      rewrite app_nil_r.
      by rewrite (removeLabels_done_calls _ _ _ _ _ _ _ Hrun). }
    split.
    + unfold updateLabel. rewrite calls_bind. apply Forall_app. split.
      * apply avoids_removeLabels.
      * destruct (outcome_of _) as [[e|]|p|]; try constructor.
        rewrite addLabel_selected, Hsel. constructor.
    + intros w1 t1 Hrun. split; [by eapply Hdone|].
      intros k Hk. rewrite (Hdone _ _ Hrun). unfold calls_of. simpl.
      rewrite <- (range_keys sizes _ Hrm) in Hk.
      apply elem_of_list_to_set in Hk.
      apply list_elem_of_fmap. by exists k.
Qed.

(** C9.  The removal loop reads the status code of the response before it
    looks at the error: a removal call that comes back with no response,
    whatever its error, makes [updateLabel] panic on the nil dereference
    instead of returning the error. *)
Theorem removal_without_response_panics
  (ro : RangeOrders) (owner repo : string) (number changes : Z) (w : W)
  (before : list (string * Size)) (k : string) (v : Size)
  (after : list (string * Size)) (w1 : W) (t1 : list Call)
  (err : option error) (w2 : W) :
  removeOrder ro = before ++ (k, v) :: after ->
  removeLabels owner repo number before w = (Done None, w1, t1) ->
  RemoveLabelForIssue owner repo number k w1 = ((None, err), w2) ->
  updateLabel ro owner repo number changes w
  = (Panic NilDereference, w2, t1 ++ [CallRemoveLabel owner repo number k]).
Proof.
  intros Hord Hbefore Hcall. unfold updateLabel. rewrite Hord.
  unfold bind at 1.
  rewrite (removeLabels_app _ _ _ _ _ _ _ _ Hbefore). simpl.
  unfold bind, callRemoveLabel, deref, throw. rewrite Hcall. reflexivity.
Qed.

End LabelReconciler.

(** ** Reconciling twice against a service that keeps the labels *)

Section Idempotence.

Variable known : list (string * PullRequestEvent).

Local Hint Extern 0 (GitHub _) =>
  exact (Hub.client known) : typeclass_instances.

Lemma hub_removeLabel_labels owner repo number k h :
  (Hub.removeLabel owner repo number k h).1.2
  = (if decide (k ∈ Hub.labels h owner repo number)
     then None else Some "404 Not Found")
  /\ (exists r, (Hub.removeLabel owner repo number k h).1.1 = Some r
                /\ StatusCode r
                   = if decide (k ∈ Hub.labels h owner repo number)
                     then 200 else 404)
  /\ Hub.labels (Hub.removeLabel owner repo number k h).2 owner repo number
     = Hub.labels h owner repo number ∖ {[k]}.
Proof.
  unfold Hub.removeLabel.
  destruct (decide (k ∈ Hub.labels h owner repo number)) as [Hin|Hout];
    simpl; (split; [done|]); (split; [eauto|]).
  - unfold Hub.labels at 1. simpl. by rewrite lookup_insert_eq.
  - set_solver.
Qed.

Lemma hub_removeLabels owner repo number order : forall h,
  exists h',
    removeLabels owner repo number order h
    = (Done None, h', map (CallRemoveLabel owner repo number) order.*1)
    /\ Hub.labels h' owner repo number
       = Hub.labels h owner repo number ∖ list_to_set order.*1.
Proof.
  induction order as [|[k v] order IH]; intros h; simpl.
  - exists h. split; [done | set_solver].
  - destruct (hub_removeLabel_labels owner repo number k h)
      as (Herr & (r & Hres & Hcode) & Hlabels).
    destruct (IH (Hub.removeLabel owner repo number k h).2)
      as (h' & Hrun & Hlabels').
    exists h'. split; [|rewrite Hlabels', Hlabels; set_solver].
    unfold bind at 1, callRemoveLabel. simpl.
    destruct (Hub.removeLabel owner repo number k h) as [[res err] h1].
    simpl in *. subst res err.
    change (deref (Some r)) with (ret (W := Hub.state) r).
    rewrite bind_ret_l.
    destruct (decide (k ∈ Hub.labels h owner repo number));
      rewrite Hcode; simpl; rewrite Hrun; done.
Qed.

Lemma hub_addLabel owner repo number changes order l h :
  selected changes order = Some l ->
  exists h',
    addLabel owner repo number changes order h
    = (Done (l, None), h', [CallAddLabels owner repo number [l]])
    /\ Hub.labels h' owner repo number
       = Hub.labels h owner repo number ∪ {[l]}.
Proof.
  intros Hsel. rewrite addLabel_selected, Hsel. simpl.
  eexists. split; [done|].
  unfold Hub.labels at 1. simpl. rewrite lookup_insert_eq. simpl.
  set_solver.
Qed.

Lemma hub_updateLabel ro owner repo number changes l h :
  ranges_over defaultSizes (removeOrder ro) ->
  selected changes (addOrder ro) = Some l ->
  exists h' t,
    updateLabel ro owner repo number changes h = (Done (l, None), h', t)
    /\ Hub.labels h' owner repo number
       = (Hub.labels h owner repo number ∖ sizeLabels) ∪ {[l]}.
Proof.
  intros Hrm Hsel.
  destruct (hub_removeLabels owner repo number (removeOrder ro) h)
    as (h1 & Hrun & Hl1).
  destruct (hub_addLabel owner repo number changes (addOrder ro) l h1 Hsel)
    as (h2 & Hadd & Hl2).
  exists h2. eexists. unfold updateLabel.
  rewrite (bind_run _ _ _ _ _ _ Hrun), Hadd. simpl. split; [done|].
  rewrite Hl2, Hl1. unfold sizeLabels.
  by rewrite (range_keys _ _ Hrm).
Qed.

Lemma selected_size_label c :
  0 <= c <= MaxInt64 ->
  exists l, l ∈ sizeLabels
            /\ forall order, ranges_over defaultSizes order ->
                             selected c order = Some l.
Proof.
  intros Hc.
  destruct (default_bucket c Hc) as (k & v & Hin & Hv & Huniq).
  exists k. split.
  - apply elem_of_dom. exists v. by apply defaultSizes_lookup.
  - intros order Hord.
    destruct (selected_default c order Hc Hord) as (k1 & v1 & H1 & Hv1 & ->).
    f_equal. by apply (Huniq k1 v1).
Qed.

(** C8.  Against a service that keeps the labels of the pull request,
    [updateLabel] run twice in a row for the same pull request and change
    count succeeds both times with the same label: in the second run the
    removal of each size label that is absent is answered 404 with an error
    and passed over, and the label set, unchanged by the second run, holds
    exactly one size label. *)
Theorem updateLabel_twice_is_idempotent
  (h : Hub.state) (ro1 ro2 : RangeOrders) (owner repo : string)
  (number changes : Z) :
  0 <= changes <= MaxInt64 ->
  ranges_over defaultSizes (removeOrder ro1) ->
  ranges_over defaultSizes (addOrder ro1) ->
  ranges_over defaultSizes (removeOrder ro2) ->
  ranges_over defaultSizes (addOrder ro2) ->
  exists l h1 t1 h2 t2,
    updateLabel ro1 owner repo number changes h = (Done (l, None), h1, t1)
    /\ updateLabel ro2 owner repo number changes h1
       = (Done (l, None), h2, t2)
    /\ (forall k, k ∈ sizeLabels -> k <> l ->
          (RemoveLabelForIssue owner repo number k h1).1
          = (Some (Hub.response 404 "404 Not Found" 0),
             Some "404 Not Found"))
    /\ Hub.labels h1 owner repo number ∩ sizeLabels = {[l]}
    /\ Hub.labels h2 owner repo number ∩ sizeLabels = {[l]}
    /\ Hub.labels h2 owner repo number = Hub.labels h1 owner repo number.
Proof.
  intros Hc Hrm1 Hadd1 Hrm2 Hadd2.
  destruct (selected_size_label changes Hc) as (l & Hl & Hsel).
  destruct (hub_updateLabel ro1 owner repo number changes l h Hrm1
              (Hsel _ Hadd1)) as (h1 & t1 & Hrun1 & Hl1).
  destruct (hub_updateLabel ro2 owner repo number changes l h1 Hrm2
              (Hsel _ Hadd2)) as (h2 & t2 & Hrun2 & Hl2).
  exists l, h1, t1, h2, t2.
  assert (Hub.labels h2 owner repo number = Hub.labels h1 owner repo number)
    as Hsame.
  { rewrite Hl2, Hl1. apply set_eq. intros x.
    destruct (decide (x = l)) as [->|Hne]; set_solver. }
  assert (Hub.labels h1 owner repo number ∩ sizeLabels = {[l]}) as Hone.
  { rewrite Hl1. set_solver. }
  repeat split; try done.
  - intros k Hk Hne. simpl. unfold Hub.removeLabel.
    destruct (decide (k ∈ Hub.labels h1 owner repo number)) as [Hin|Hout];
      [|done].
    rewrite Hl1 in Hin. set_solver.
  - by rewrite Hsame.
Qed.

End Idempotence.

(** ** EventFilter and the handler *)

Section EventFilter.

Context {W : Type} {gh : GitHub W}.

Lemma GetHeader_absent key hs : absent key hs -> GetHeader hs key = "".
Proof.
  unfold absent. induction hs as [|[k v] hs IH]; intros Habs; simpl; [done|].
  rewrite !fmap_cons in Habs. simpl in Habs.
  apply not_elem_of_cons in Habs as [Hne Habs].
  destruct (String.eqb_spec (CanonicalMIMEHeaderKey k)
              (CanonicalMIMEHeaderKey key)) as [Heq|_];
    [by rewrite Heq in Hne | by apply IH].
Qed.

Lemma sign_not_empty s b : String.eqb (sign s b) "" = false.
Proof. reflexivity. Qed.

Lemma in_codeActions action :
  action ∈ codeActions
  <-> negb (String.eqb action "opened")
      && negb (String.eqb action "synchronize")
      && negb (String.eqb action "reopened") = false.
Proof.
  unfold codeActions. rewrite !elem_of_cons, elem_of_nil.
  destruct (String.eqb_spec action "opened");
    destruct (String.eqb_spec action "synchronize");
    destruct (String.eqb_spec action "reopened"); simpl; naive_solver.
Qed.

(** Past the filters the handler is the parse followed by aggregation and
    reconciliation, or the skip of the action. *)
Lemma processHook_accepted cfg ro fuel req body payload r0 r1 action number w :
  accepted cfg req body payload r0 r1 ->
  Action payload = Some action ->
  Number payload = Some number ->
  processHook cfg ro fuel req w
  = if negb (String.eqb action "opened")
       && negb (String.eqb action "synchronize")
       && negb (String.eqb action "reopened")
    then (Done (JSON StatusOK "Skipping action"), w,
          [CallParseWebHook "pull_request" body])
    else ((sizeAndLabel ro fuel r0 r1 number w).1.1,
          (sizeAndLabel ro fuel r0 r1 number w).1.2,
          CallParseWebHook "pull_request" body
          :: (sizeAndLabel ro fuel r0 r1 number w).2).
Proof.
  intros [Hsig Hbody Hevent Hparsed
            (repository & fullName & rest & Hrepo & Hname & Hsplit) Hcfg]
         Haction Hnumber.
  unfold processHook. cbv zeta.
  rewrite Hsig, sign_not_empty, Hbody.
  rewrite (proj2 (validateSig_spec cfg _ body) eq_refl).
  rewrite Hevent, String.eqb_refl. change (negb true) with false. cbv iota.
  assert (callParseWebHook "pull_request" body w
          = (Done (inl (PullRequest payload)), w,
             [CallParseWebHook "pull_request" body]))
    as Hcall by (unfold callParseWebHook; by rewrite Hparsed).
  rewrite (bind_run _ _ _ _ _ _ Hcall). cbv beta iota.
  simpl asPullRequestEvent. rewrite !bind_ret_l.
  rewrite !Hrepo. simpl deref. rewrite !bind_ret_l.
  rewrite !Hname. simpl deref. rewrite !bind_ret_l.
  rewrite !Hsplit, !Haction, !Hnumber.
  assert (forall checkSplit,
            checkSplit = [r0]
            \/ (exists more, checkSplit = r0 :: r1 :: more) ->
            forall k : bool -> M W Reply,
              bind (W := W) (index checkSplit 0)
                (fun c0 =>
                   if negb (String.eqb r0 c0) then
                     ret (JSON StatusForbidden
                               "Not configured for this repository")
                   else
                     bind (if (1 <? length checkSplit)%nat then
                             bind (index (r0 :: r1 :: rest) 1)
                               (fun r1' =>
                                  bind (index checkSplit 1)
                                    (fun c1 =>
                                       ret (negb (String.eqb r1' c1))))
                           else ret false) k) w
              = k false w) as Hcheck.
  { intros checkSplit [->|[more ->]] k; unfold index; simpl.
    - rewrite bind_ret_l, String.eqb_refl. simpl. by rewrite bind_ret_l.
    - rewrite bind_ret_l, String.eqb_refl. simpl.
      unfold bind at 1. rewrite !bind_ret_l. simpl.
      rewrite String.eqb_refl. simpl.
      by destruct (k false w) as [[??]?]. }
  change (index (r0 :: r1 :: rest) 0) with (ret (W := W) r0).
  rewrite !bind_ret_l.
  rewrite !(Hcheck _ Hcfg). simpl deref. rewrite !bind_ret_l.
  destruct (negb (String.eqb action "opened")
            && negb (String.eqb action "synchronize")
            && negb (String.eqb action "reopened")); [done|].
  change (index (r0 :: r1 :: rest) 1) with (ret (W := W) r1).
  rewrite !bind_ret_l. reflexivity.
Qed.

Lemma Split_no_sep sep s : has_byte sep s = false -> Split s sep = [s].
Proof.
  induction s as [|c s IH]; simpl; [done|].
  intros [Hc Hs]%orb_false_iff. by rewrite Hc, (IH Hs).
Qed.

Lemma readPaginatedFileChanges_first_call fuel owner repo number w :
  (0 < fuel)%nat ->
  exists t,
    calls_of (readPaginatedFileChanges fuel owner repo number w)
    = CallListFiles owner repo number {| Page := 0; PerPage := 100 |} :: t.
Proof.
  destruct fuel as [|fuel]; [lia|]. intros _.
  unfold readPaginatedFileChanges. simpl. rewrite calls_bind.
  unfold callListFiles at 1, calls_of at 1.
  destruct (ListFiles owner repo number _ w) as [? ?]. simpl. eauto.
Qed.

(** An aggregation that returns an error is answered 400, and a
    reconciliation that returns one is answered 500. *)
Lemma sizeAndLabel_aggregation_error ro fuel r0 r1 number w changes e w1 t1 :
  readPaginatedFileChanges fuel r0 r1 number w
  = (Done (changes, Some e), w1, t1) ->
  sizeAndLabel ro fuel r0 r1 number w
  = (Done (JSON StatusBadRequest "Error reading PR changes"), w1, t1).
Proof.
  intros Hrun. unfold sizeAndLabel.
  rewrite (bind_run _ _ _ _ _ _ Hrun). simpl. by rewrite app_nil_r.
Qed.

Lemma sizeAndLabel_reconciliation_error
  ro fuel r0 r1 number w changes w1 t1 label e w2 t2 :
  readPaginatedFileChanges fuel r0 r1 number w
  = (Done (changes, None), w1, t1) ->
  updateLabel ro r0 r1 number changes w1 = (Done (label, Some e), w2, t2) ->
  sizeAndLabel ro fuel r0 r1 number w
  = (Done (JSON StatusInternalServerError "Error processing request (1)"),
     w2, t1 ++ t2).
Proof.
  intros Hrun Hupd. unfold sizeAndLabel.
  rewrite (bind_run _ _ _ _ _ _ Hrun). cbv beta iota.
  rewrite (bind_run _ _ _ _ _ _ Hupd). simpl. by rewrite app_nil_r.
Qed.

(** C2, as the code has it.  An authenticated pull_request event for the
    configured repository goes on to aggregation, whose first call lists
    the files of the pull request, if and only if its action is one of
    opened, synchronize and reopened; every other action is answered 200,
    "Skipping action", the parse being the only call made. *)
Theorem processHook_proceeds_on_code_actions
  (cfg : Config) (ro : RangeOrders) (fuel : nat) (req : Request)
  (body : list byte) (payload : PullRequestEvent) (r0 r1 action : string)
  (number : Z) (w : W) :
  accepted cfg req body payload r0 r1 ->
  Action payload = Some action ->
  Number payload = Some number ->
  (0 < fuel)%nat ->
  (action ∈ codeActions
   <-> CallListFiles r0 r1 number {| Page := 0; PerPage := 100 |}
       ∈ calls_of (processHook cfg ro fuel req w))
  /\ (action ∈ codeActions ->
      outcome_of (processHook cfg ro fuel req w)
      = outcome_of (sizeAndLabel ro fuel r0 r1 number w)
      /\ calls_of (processHook cfg ro fuel req w)
         = CallParseWebHook "pull_request" body
           :: calls_of (sizeAndLabel ro fuel r0 r1 number w))
  /\ (action ∉ codeActions ->
      processHook cfg ro fuel req w
      = (Done (JSON StatusOK "Skipping action"), w,
         [CallParseWebHook "pull_request" body])
      /\ Forall (fun c => upstream c = false)
                (calls_of (processHook cfg ro fuel req w))).
Proof.
  intros Hacc Haction Hnumber Hfuel.
  rewrite (processHook_accepted _ ro fuel _ _ _ _ _ _ _ w Hacc Haction Hnumber).
  pose proof (in_codeActions action) as Hin.
  destruct (negb (String.eqb action "opened")
            && negb (String.eqb action "synchronize")
            && negb (String.eqb action "reopened")).
  - assert (action ∉ codeActions) as Hout by (rewrite Hin; done).
    split; [|split]; [|done|].
    + split; [done|]. unfold calls_of. simpl.
      intros Hc%list_elem_of_singleton. done.
    + intros _. split; [done|]. by repeat constructor.
  - assert (action ∈ codeActions) as Hyes by (by apply Hin).
    split; [|split]; [|done|done].
    split; [|done]. intros _. unfold calls_of at 1. simpl. right.
    destruct (readPaginatedFileChanges_first_call fuel r0 r1 number w Hfuel)
      as [t Ht].
    unfold sizeAndLabel. fold (calls_of (A := Reply)
      (bind (readPaginatedFileChanges fuel r0 r1 number)
         (fun '(changes, err) =>
            match err with
            | Some _ => ret (JSON StatusBadRequest "Error reading PR changes")
            | None =>
                bind (updateLabel ro r0 r1 number changes)
                  (fun '(label, err0) =>
                     match err0 with
                     | Some _ =>
                         ret (JSON StatusInternalServerError
                                   "Error processing request (1)")
                     | None => ret (JSON StatusOK "Success")
                     end)
            end) w)).
    rewrite calls_bind, Ht. left.
Qed.

(** C7.  A request without the X-Hub-Signature header, under whatever
    letter case the name would be sent, is answered 400, and a request whose
    signature is not the one of its body under the shared secret is answered
    403; in both cases no call is made: the body is not parsed and the
    upstream is not reached. *)
Theorem unsigned_400_and_mismatch_403
  (cfg : Config) (ro : RangeOrders) (fuel : nat) (req : Request) (w : W) :
  (absent "X-Hub-Signature" (Headers req) ->
   processHook cfg ro fuel req w
   = (Done (JSON StatusBadRequest "Missing X-Hub-Signature"), w, []))
  /\ (forall body,
        GetHeader (Headers req) "X-Hub-Signature" <> "" ->
        Body req = Some body ->
        GetHeader (Headers req) "X-Hub-Signature"
        <> sign (sharedSecret cfg) body ->
        processHook cfg ro fuel req w
        = (Done (JSON StatusForbidden
                      "Validating payload against signature failed"),
           w, [])).
Proof.
  split.
  - intros Habs. unfold processHook. by rewrite (GetHeader_absent _ _ Habs).
  - intros body Hne Hbody Hsig. unfold processHook. cbv zeta.
    destruct (String.eqb_spec (GetHeader (Headers req) "X-Hub-Signature") "")
      as [?|_]; [done|].
    rewrite Hbody.
    destruct (validateSig cfg _ body) as [e|] eqn:Hv; [done|].
    by apply validateSig_spec in Hv.
Qed.

(** C10.  When the configured name has the form owner/name and the full
    name of the event's repository has no "/" and equals the owner, the
    repository check reads the second component of a split that has one:
    the handler panics with index 1 out of range, which the recovery of
    the router answers with 500. *)
Theorem repository_check_indexes_out_of_range
  (cfg : Config) (ro : RangeOrders) (fuel : nat) (req : Request)
  (body : list byte) (payload : PullRequestEvent) (repository : Repository)
  (fullName c1 : string) (more : list string) (w : W) :
  GetHeader (Headers req) "X-Hub-Signature" = sign (sharedSecret cfg) body ->
  Body req = Some body ->
  GetHeader (Headers req) "X-GitHub-Event" = "pull_request" ->
  ParseWebHook "pull_request" body = inl (PullRequest payload) ->
  Repo payload = Some repository ->
  FullName repository = Some fullName ->
  has_byte "/" fullName = false ->
  Split (repoOrOrgName cfg) "/" = fullName :: c1 :: more ->
  processHook cfg ro fuel req w
  = (Panic (IndexOutOfRange 1 1), w, [CallParseWebHook "pull_request" body])
  /\ serve cfg ro fuel req w
     = (Done (JSON StatusInternalServerError ""), w,
        [CallParseWebHook "pull_request" body]).
Proof.
  intros Hsig Hbody Hevent Hparsed Hrepo Hname Hslash Hcfg.
  assert (processHook cfg ro fuel req w
          = (Panic (IndexOutOfRange 1 1), w,
             [CallParseWebHook "pull_request" body])) as Hpanic.
  { unfold processHook. cbv zeta.
    rewrite Hsig, sign_not_empty, Hbody.
    rewrite (proj2 (validateSig_spec cfg _ body) eq_refl).
    rewrite Hevent, String.eqb_refl. change (negb true) with false.
    cbv iota.
    unfold bind at 1, callParseWebHook. rewrite Hparsed. cbv beta iota.
    simpl asPullRequestEvent. rewrite bind_ret_l.
    rewrite Hrepo. simpl deref. rewrite bind_ret_l.
    rewrite Hname. simpl deref. rewrite bind_ret_l.
    rewrite (Split_no_sep _ _ Hslash), Hcfg. unfold index. simpl.
    rewrite !bind_ret_l, String.eqb_refl. reflexivity. }
  split; [done|]. unfold serve. by rewrite Hpanic.
Qed.

End EventFilter.

(** ** Deliveries run against the two services *)

Section Runs.

Local Hint Extern 0 (GitHub _) =>
  exact (Scripted.client Fixture.known) : typeclass_instances.

(** The end-to-end case of the specification: action opened, repository
    acme/widget as configured, 47 changed lines; every size label is asked
    to be removed, size/M is added, and the other labels stay. *)
Example delivery_of_47_changes_labels_size_M :
  let run :=
    processHook (gh := Hub.client Fixture.known) Fixture.cfg Fixture.orders 10
      (Fixture.request "s3cret" "acme/widget" "opened")
      {| Hub.labelsOf :=
           {[ ("acme", "widget", 7) := {[ "size/XS"; "bug" ]} ]};
         Hub.filesOf :=
           {[ ("acme", "widget", 7) := [Fixture.file 40; Fixture.file 7] ]} |}
  in
  outcome_of run = Done (JSON 200 "Success")
  /\ calls_of run
     = [CallParseWebHook "pull_request" (Fixture.body "acme/widget" "opened");
        CallListFiles "acme" "widget" 7 {| Page := 0; PerPage := 100 |};
        CallRemoveLabel "acme" "widget" 7 "size/XS";
        CallRemoveLabel "acme" "widget" 7 "size/S";
        CallRemoveLabel "acme" "widget" 7 "size/M";
        CallRemoveLabel "acme" "widget" 7 "size/L";
        CallRemoveLabel "acme" "widget" 7 "size/XL";
        CallRemoveLabel "acme" "widget" 7 "size/XXL";
        CallAddLabels "acme" "widget" 7 ["size/M"]]
  /\ elements (Hub.labels (world_of run) "acme" "widget" 7)
     = ["size/M"; "bug"].
Proof. vm_compute. done. Qed.

(** C1.  The delivery is authentic, for the configured repository, its
    action opened; the first page of the listing is served and the second
    is answered 502, or the listing fails in transport: [processHook]
    answers 400, "Error reading PR changes", where an error of
    [updateLabel] is answered 500. *)
Theorem aggregation_failure_is_answered_400 :
  processHook Fixture.cfg Fixture.orders 10
    (Fixture.request "s3cret" "acme/widget" "opened")
    [Scripted.Files [Fixture.file 3] (Scripted.ok 2) None;
     Scripted.Files [] (Scripted.status 502 "502 Bad Gateway") None]
  = (Done (JSON 400 "Error reading PR changes"), [],
     [CallParseWebHook "pull_request" (Fixture.body "acme/widget" "opened");
      CallListFiles "acme" "widget" 7 {| Page := 0; PerPage := 100 |};
      CallListFiles "acme" "widget" 7 {| Page := 2; PerPage := 100 |}])
  /\ processHook Fixture.cfg Fixture.orders 10
       (Fixture.request "s3cret" "acme/widget" "opened") []
     = (Done (JSON 400 "Error reading PR changes"), [],
        [CallParseWebHook "pull_request"
           (Fixture.body "acme/widget" "opened");
         CallListFiles "acme" "widget" 7 {| Page := 0; PerPage := 100 |}])
  /\ outcome_of
       (processHook Fixture.cfg Fixture.orders 10
          (Fixture.request "s3cret" "acme/widget" "opened")
          [Scripted.Files [Fixture.file 3] (Scripted.ok 0) None;
           Scripted.Removed (Scripted.status 500 "500 Internal Server Error")
                            (Some "500 Internal Server Error")])
     = Done (JSON 500 "Error processing request (1)").
Proof. vm_compute. done. Qed.

(** C2 as the specification words it fails: the action synchronized is
    one of the three it lists, and the authentic delivery that carries it is
    skipped, no upstream call made. *)
Lemma synchronized_is_skipped :
  "synchronized" ∈ specActions
  /\ accepted Fixture.cfg
       (Fixture.request "s3cret" "acme/widget" "synchronized")
       (Fixture.body "acme/widget" "synchronized")
       (Fixture.payload "acme/widget" "synchronized") "acme" "widget"
  /\ processHook Fixture.cfg Fixture.orders 10
       (Fixture.request "s3cret" "acme/widget" "synchronized")
       [Scripted.Files [Fixture.file 3] (Scripted.ok 0) None]
     = (Done (JSON 200 "Skipping action"),
        [Scripted.Files [Fixture.file 3] (Scripted.ok 0) None],
        [CallParseWebHook "pull_request"
           (Fixture.body "acme/widget" "synchronized")]).
Proof.
  split; [|split].
  - unfold specActions. by right; left.
  - split; try (vm_compute; reflexivity).
    + exists {| FullName := Some "acme/widget" |}, "acme/widget", [].
      by vm_compute.
    + right. exists []. reflexivity.
  - vm_compute. reflexivity.
Qed.

Lemma processHook_proceeds_on_code_actions_witness :
  CallListFiles "acme" "widget" 7 {| Page := 0; PerPage := 100 |}
  ∈ calls_of
      (processHook Fixture.cfg Fixture.orders 10
         (Fixture.request "s3cret" "acme/widget" "synchronize")
         [Scripted.Files [Fixture.file 3] (Scripted.ok 0) None]).
Proof.
  apply (processHook_proceeds_on_code_actions
           Fixture.cfg Fixture.orders 10
           (Fixture.request "s3cret" "acme/widget" "synchronize")
           (Fixture.body "acme/widget" "synchronize")
           (Fixture.payload "acme/widget" "synchronize")
           "acme" "widget" "synchronize" 7).
  - split; try (vm_compute; reflexivity).
    + exists {| FullName := Some "acme/widget" |}, "acme/widget", [].
      by vm_compute.
    + right. exists []. reflexivity.
  - reflexivity.
  - reflexivity.
  - lia.
  - unfold codeActions. by right; left.
Defined.

Lemma validateSig_accepts_exactly_sign_witness :
  validateSig Fixture.cfg
    (sign "s3cret" (Fixture.body "acme/widget" "opened"))
    (Fixture.body "acme/widget" "opened") = None
  /\ validateSig Fixture.cfg
       (sign "secret" (Fixture.body "acme/widget" "opened"))
       (Fixture.body "acme/widget" "opened")
     = Some "payload signature check failed".
Proof.
  destruct (validateSig_accepts_exactly_sign Fixture.cfg
              (Fixture.body "acme/widget" "opened")) as [Hok Hno].
  split; [exact Hok|]. apply Hno.
  apply String.eqb_neq. vm_compute. reflexivity.
Defined.

Lemma default_table_selects_exactly_one_label_witness :
  exists k, selected 47 (rev defaultEntries) = Some k
            /\ selected 9 (rev defaultEntries) = Some "size/XS".
Proof.
  destruct default_table_selects_exactly_one_label as [Hall Hsome].
  assert (ranges_over defaultSizes (rev defaultEntries)) as Hord.
  { apply ranges_over_default. symmetry. apply Permutation_rev. }
  destruct (Hall 47) as (k & _ & _ & Hsel); [unfold MaxInt64; lia|].
  exists k. split; [by apply Hsel | by apply Hsome].
Defined.

Lemma readPaginatedFileChanges_exact_sum_or_error_witness :
  readPaginatedFileChanges 5 "acme" "widget" 7
    [Scripted.Files [Fixture.file 1; Fixture.file 2] (Scripted.ok 2) None;
     Scripted.Files [Fixture.file 3] (Scripted.ok 3) None;
     Scripted.Files [Fixture.file 4] (Scripted.ok 0) None]
  = (Done (10, None), [],
     listingCalls "acme" "widget" 7
       [(0, [Fixture.file 1; Fixture.file 2]); (2, [Fixture.file 3]);
        (3, [Fixture.file 4])])
  /\ outcome_of
       (readPaginatedFileChanges 5 "acme" "widget" 7
          [Scripted.Files [Fixture.file 1; Fixture.file 2] (Scripted.ok 2)
                          None;
           Scripted.Files [] (Scripted.status 502 "502 Bad Gateway") None;
           Scripted.Files [Fixture.file 4] (Scripted.ok 0) None])
     = Done (0, Some "Unable to get changed files. Status code: 502 Bad Gateway").
Proof.
  split.
  - apply (proj1 (readPaginatedFileChanges_exact_sum_or_error
                    "acme" "widget" 7 _)
             [(0, [Fixture.file 1; Fixture.file 2]); (2, [Fixture.file 3]);
              (3, [Fixture.file 4])] []).
    + eapply serves_next; [reflexivity | reflexivity | done |].
      eapply serves_next; [reflexivity | reflexivity | done |].
      eapply serves_last; reflexivity.
    + simpl.
      repeat first [apply Forall_nil_2 | apply Forall_cons_2 | by eexists].
    + vm_compute. split; [discriminate | reflexivity].
    + simpl. lia.
  - apply (proj2 (readPaginatedFileChanges_exact_sum_or_error
                    "acme" "widget" 7 _) 1%nat _
             [Scripted.Files [Fixture.file 4] (Scripted.ok 0) None]).
    + eapply fails_later; [reflexivity | reflexivity | | done |].
      * repeat first [apply Forall_nil_2 | apply Forall_cons_2 | by eexists].
      * apply (fails_status (gh := Scripted.client Fixture.known) "acme" "widget" 7 2 _ []
                 {| StatusCode := 502; Status := "502 Bad Gateway";
                    NextPage := 0 |}
                 [Scripted.Files [Fixture.file 4] (Scripted.ok 0) None]);
          [reflexivity | done].
    + lia.
Defined.

Lemma removal_without_response_panics_witness :
  updateLabel Fixture.orders "acme" "widget" 7 47
    [Scripted.Removed (Scripted.status 404 "404 Not Found")
                      (Some "404 Not Found");
     Scripted.Removed None (Some Scripted.refused)]
  = (Panic NilDereference, [],
     [CallRemoveLabel "acme" "widget" 7 "size/XS";
      CallRemoveLabel "acme" "widget" 7 "size/S"]).
Proof.
  apply (removal_without_response_panics Fixture.orders "acme" "widget" 7 47
           _ [("size/XS", {| Min := 0; Max := 9 |})]
           "size/S" {| Min := 10; Max := 29 |}
           (drop 2 defaultEntries)
           [Scripted.Removed None (Some Scripted.refused)]
           [CallRemoveLabel "acme" "widget" 7 "size/XS"]
           (Some Scripted.refused) []);
    reflexivity.
Defined.

Lemma repository_check_indexes_out_of_range_witness :
  serve Fixture.cfg Fixture.orders 10
    (Fixture.request "s3cret" "acme" "opened") []
  = (Done (JSON 500 ""), [],
     [CallParseWebHook "pull_request" (Fixture.body "acme" "opened")]).
Proof.
  apply (repository_check_indexes_out_of_range
           Fixture.cfg Fixture.orders 10
           (Fixture.request "s3cret" "acme" "opened")
           (Fixture.body "acme" "opened") (Fixture.payload "acme" "opened")
           {| FullName := Some "acme" |} "acme" "widget" []);
    reflexivity.
Defined.

Lemma unsigned_400_and_mismatch_403_witness :
  processHook Fixture.cfg Fixture.orders 10
    {| Headers := [("X-GitHub-Event", "pull_request")];
       Body := Some (Fixture.body "acme/widget" "opened") |} []
  = (Done (JSON 400 "Missing X-Hub-Signature"), [], [])
  /\ processHook Fixture.cfg Fixture.orders 10
       (Fixture.request "secret" "acme/widget" "opened") []
     = (Done (JSON 403 "Validating payload against signature failed"),
        [], []).
Proof.
  split.
  - apply (proj1 (unsigned_400_and_mismatch_403 Fixture.cfg Fixture.orders 10
                    _ [])).
    unfold absent. simpl. intros Hin%list_elem_of_singleton. discriminate.
  - apply (proj2 (unsigned_400_and_mismatch_403 Fixture.cfg Fixture.orders 10
                    _ []) (Fixture.body "acme/widget" "opened")).
    + apply String.eqb_neq. vm_compute. reflexivity.
    + reflexivity.
    + apply String.eqb_neq. vm_compute. reflexivity.
Defined.

Lemma no_label_added_before_the_removal_pass_witness :
  removal_first (dom defaultSizes)
    (calls_of
       (processHook Fixture.cfg Fixture.orders 10
          (Fixture.request "s3cret" "acme/widget" "opened")
          (Scripted.Files [Fixture.file 47] (Scripted.ok 0) None
           :: replicate 6 (Scripted.Removed
                             (Scripted.status 404 "404 Not Found")
                             (Some "404 Not Found"))
           ++ [Scripted.Added ["size/M"] (Scripted.ok 0) None])))
  /\ updateLabel Fixture.orders "acme" "widget" 7 (-1)
       (replicate 6 (Scripted.Removed (Scripted.status 404 "404 Not Found")
                                      (Some "404 Not Found")))
     = (Done ("", None), [],
        map (CallRemoveLabel "acme" "widget" 7) defaultEntries.*1).
Proof.
  assert (ranges_over defaultSizes defaultEntries) as Hrm.
  { by apply ranges_over_default. }
  assert (ranges_over defaultSizes (rev defaultEntries)) as Hadd.
  { apply ranges_over_default. symmetry. apply Permutation_rev. }
  destruct (no_label_added_before_the_removal_pass
              defaultSizes Fixture.cfg Fixture.orders 10
              (Fixture.request "s3cret" "acme/widget" "opened")
              (Scripted.Files [Fixture.file 47] (Scripted.ok 0) None
               :: replicate 6 (Scripted.Removed
                                 (Scripted.status 404 "404 Not Found")
                                 (Some "404 Not Found"))
               ++ [Scripted.Added ["size/M"] (Scripted.ok 0) None])
              "acme" "widget" 7 (-1)
              (replicate 6 (Scripted.Removed
                              (Scripted.status 404 "404 Not Found")
                              (Some "404 Not Found")))
              Hrm Hadd) as [Hfirst Hnone].
  split; [exact Hfirst|].
  assert (forall k v, defaultSizes !! k = Some v ->
                      ~ Min v <= int64 (-1) <= Max v) as Hno.
  { intros k v Hin%defaultSizes_lookup.
    change (int64 (-1)) with (-1).
    entries Hin; simpl; lia. }
  destruct (Hnone Hno) as [_ Hdone].
  eapply Hdone. reflexivity.
Defined.

End Runs.

Lemma updateLabel_twice_is_idempotent_witness :
  exists l h1 t1 h2 t2,
    updateLabel (gh := Hub.client Fixture.known) Fixture.orders
      "acme" "widget" 7 47
      {| Hub.labelsOf := {[ ("acme", "widget", 7) := {[ "size/XS"; "bug" ]} ]};
         Hub.filesOf := ∅ |}
    = (Done (l, None), h1, t1)
    /\ updateLabel (gh := Hub.client Fixture.known) Fixture.orders
         "acme" "widget" 7 47 h1
       = (Done (l, None), h2, t2)
    /\ Hub.labels h2 "acme" "widget" 7 ∩ sizeLabels = {[l]}.
Proof.
  assert (ranges_over defaultSizes defaultEntries) as Hrm.
  { by apply ranges_over_default. }
  assert (ranges_over defaultSizes (rev defaultEntries)) as Hadd.
  { apply ranges_over_default. symmetry. apply Permutation_rev. }
  destruct (updateLabel_twice_is_idempotent Fixture.known
              {| Hub.labelsOf :=
                   {[ ("acme", "widget", 7) := {[ "size/XS"; "bug" ]} ]};
                 Hub.filesOf := ∅ |}
              Fixture.orders Fixture.orders "acme" "widget" 7 47)
    as (l & h1 & t1 & h2 & t2 & H1 & H2 & _ & _ & Hone & _);
    [unfold MaxInt64; lia | done..|].
  by exists l, h1, t1, h2, t2.
Defined.

(** * Further properties of the code *)

(** ** What the calls of a computation are *)

Section CallsOf.

Context {W : Type} {gh : GitHub W}.

Lemma all_calls_ret {A} P (a : A) : all_calls (W := W) P (ret a).
Proof. intros w. constructor. Qed.

Lemma all_calls_throw {A} P p : all_calls (W := W) (A := A) P (throw p).
Proof. intros w. constructor. Qed.

Lemma all_calls_deref {A} P (p : option A) : all_calls (W := W) P (deref p).
Proof. destruct p; [apply all_calls_ret | apply all_calls_throw]. Qed.

Lemma all_calls_bind {A B} P (m : M W A) (k : A -> M W B) :
  all_calls P m -> (forall a, all_calls P (k a)) -> all_calls P (bind m k).
Proof.
  intros Hm Hk w. rewrite calls_bind. apply Forall_app. split; [apply Hm|].
  destruct (outcome_of (m w)); [apply Hk | constructor..].
Qed.

Lemma all_calls_sumChanges P cfs : forall changes,
  all_calls (W := W) P (sumChanges cfs changes).
Proof.
  induction cfs as [|cf cfs IH]; intros changes; simpl.
  - apply all_calls_ret.
  - apply all_calls_bind; [apply all_calls_deref | intros; apply IH].
Qed.

Lemma all_calls_callListFiles P owner repo number opts :
  P (CallListFiles owner repo number opts) ->
  all_calls P (callListFiles owner repo number opts).
Proof.
  intros HP w. unfold callListFiles, calls_of.
  destruct (ListFiles owner repo number opts w). by repeat constructor.
Qed.

Lemma all_calls_callRemoveLabel P owner repo number k :
  P (CallRemoveLabel owner repo number k) ->
  all_calls P (callRemoveLabel owner repo number k).
Proof.
  intros HP w. unfold callRemoveLabel, calls_of.
  destruct (RemoveLabelForIssue owner repo number k w).
  by repeat constructor.
Qed.

Lemma all_calls_callAddLabels P owner repo number new :
  P (CallAddLabels owner repo number new) ->
  all_calls P (callAddLabels owner repo number new).
Proof.
  intros HP w. unfold callAddLabels, calls_of.
  destruct (AddLabelsToIssue owner repo number new w).
  by repeat constructor.
Qed.

Lemma all_calls_readPages P fuel owner repo number :
  (forall page, P (CallListFiles owner repo number
                     {| Page := page; PerPage := 100 |})) ->
  forall page changes,
    all_calls P (readPages fuel owner repo number
                   {| Page := page; PerPage := 100 |} changes).
Proof.
  intros HP. induction fuel as [|fuel IH]; intros page changes; simpl.
  - intros w. constructor.
  - apply all_calls_bind; [by apply all_calls_callListFiles|].
    intros [[cfs resp] [e|]]; [apply all_calls_ret|].
    apply all_calls_bind; [apply all_calls_deref|]. intros r.
    destruct (negb _); [apply all_calls_ret|].
    apply all_calls_bind; [apply all_calls_sumChanges|]. intros changes'.
    destruct (_ =? _); [apply all_calls_ret | apply IH].
Qed.

Lemma all_calls_removeLabels P owner repo number order :
  (forall k v, (k, v) ∈ order -> P (CallRemoveLabel owner repo number k)) ->
  all_calls P (removeLabels owner repo number order).
Proof.
  induction order as [|[k v] order IH]; intros HP; simpl;
    [apply all_calls_ret|].
  assert (all_calls P (removeLabels owner repo number order)) as Hrest.
  { apply IH. intros k' v' Hin. apply (HP k' v'). by right. }
  apply all_calls_bind.
  { apply all_calls_callRemoveLabel, (HP k v). left. }
  intros [res err]. apply all_calls_bind; [apply all_calls_deref|].
  intros r. destruct (_ =? _); [done|].
  destruct err; [apply all_calls_ret | done].
Qed.

Lemma all_calls_addLabel P owner repo number changes order :
  (forall k v, (k, v) ∈ order -> Min v <= int64 changes <= Max v ->
               P (CallAddLabels owner repo number [k])) ->
  all_calls P (addLabel owner repo number changes order).
Proof.
  induction order as [|[k v] order IH]; intros HP; simpl;
    [apply all_calls_ret|].
  destruct (Z.leb_spec (Min v) (int64 changes));
    destruct (Z.leb_spec (int64 changes) (Max v)); simpl;
    try (apply IH; intros k' v' Hin; apply (HP k' v'); by right).
  apply all_calls_bind.
  { apply all_calls_callAddLabels, (HP k v); [left | lia]. }
  intros [[ls resp] [e|]]; apply all_calls_ret.
Qed.

Lemma all_calls_updateLabel ro owner repo number changes :
  all_calls (fun c => addressed owner repo number c
                      /\ reconciles ro changes c)
            (updateLabel ro owner repo number changes).
Proof.
  unfold updateLabel. apply all_calls_bind.
  - apply all_calls_removeLabels. intros k v Hin. split; [done|]. simpl.
    apply list_elem_of_fmap. by exists (k, v).
  - intros [e|]; [apply all_calls_ret|].
    apply all_calls_addLabel. intros k v Hin Hv. split; [done|].
    simpl. by exists k, v.
Qed.

Lemma no_add_filter t :
  Forall (fun c => is_add c = false) t -> List.filter is_add t = [].
Proof.
  induction 1 as [|c t Hc _ IH]; simpl; [done|]. by rewrite Hc.
Qed.

(** X1.  Whatever the upstream answers, every call of [updateLabel] is
    about the pull request it was given and is either the removal of a key
    of the size table or the addition of the one key whose range holds the
    count; and it adds at most once. *)
Theorem updateLabel_touches_only_size_labels
  (ro : RangeOrders) (owner repo : string) (number changes : Z) (w : W) :
  Forall (fun c => addressed owner repo number c /\ reconciles ro changes c)
         (calls_of (updateLabel ro owner repo number changes w))
  /\ (length (List.filter is_add
                (calls_of (updateLabel ro owner repo number changes w)))
      <= 1)%nat.
Proof.
  split; [apply all_calls_updateLabel|].
  unfold updateLabel. rewrite calls_bind, List.filter_app, length_app.
  rewrite (no_add_filter _ (avoids_removeLabels owner repo number _ w)).
  destruct (outcome_of _) as [[e|]|p|]; simpl; try lia.
  rewrite addLabel_selected.
  destruct (selected changes (addOrder ro)); simpl; lia.
Qed.

Lemma all_calls_readPaginatedFileChanges fuel owner repo number :
  all_calls (fun c => addressed owner repo number c /\ lists_files c)
            (readPaginatedFileChanges fuel owner repo number).
Proof. unfold readPaginatedFileChanges. by apply all_calls_readPages. Qed.

(** X2.  Whatever the upstream answers and however long it runs,
    [readPaginatedFileChanges] only lists the files of the pull request it
    was given, a page of 100 at a time: it never touches a label. *)
Theorem readPaginatedFileChanges_only_lists_files
  (fuel : nat) (owner repo : string) (number : Z) (w : W) :
  Forall (fun c => addressed owner repo number c /\ lists_files c)
         (calls_of (readPaginatedFileChanges fuel owner repo number w)).
Proof. apply all_calls_readPaginatedFileChanges. Qed.

End CallsOf.

(** ** More of the LabelReconciler *)

Section ReconcilerSteps.

Context {W : Type} {gh : GitHub W}.

(** X3.  A removal that is answered with an error and a status other
    than 404 ends [updateLabel] there: it returns the empty label with that
    error, the labels later in the range are not asked for, and nothing is
    added. *)
Theorem removal_error_aborts_reconciliation
  (ro : RangeOrders) (owner repo : string) (number changes : Z) (w : W)
  (before : list (string * Size)) (k : string) (v : Size)
  (after : list (string * Size)) (w1 : W) (t1 : list Call)
  (resp : Response) (e : error) (w2 : W) :
  removeOrder ro = before ++ (k, v) :: after ->
  removeLabels owner repo number before w = (Done None, w1, t1) ->
  RemoveLabelForIssue owner repo number k w1 = ((Some resp, Some e), w2) ->
  StatusCode resp <> 404 ->
  updateLabel ro owner repo number changes w
  = (Done ("", Some e), w2, t1 ++ [CallRemoveLabel owner repo number k]).
Proof.
  intros Hord Hbefore Hcall Hcode.
  assert (removeLabels owner repo number ((k, v) :: after) w1
          = (Done (Some e), w2, [CallRemoveLabel owner repo number k]))
    as Hstep.
  { simpl. unfold bind at 1, callRemoveLabel. rewrite Hcall. simpl.
    rewrite bind_ret_l.
    by destruct (Z.eqb_spec (StatusCode resp) 404) as [?|_]. }
  unfold updateLabel. rewrite Hord. unfold bind.
  rewrite (removeLabels_app _ _ _ _ _ _ _ _ Hbefore), Hstep. simpl.
  by rewrite app_nil_r.
Qed.

(** X4.  A removal answered 404, with or without an error, or answered
    without an error, lets the removal pass go on to the next label. *)
Theorem removal_passes_over_404_or_no_error
  (owner repo : string) (number : Z) (w : W)
  (before : list (string * Size)) (k : string) (v : Size) (w1 : W)
  (t1 : list Call) (resp : Response) (err : option error) (w2 : W) :
  removeLabels owner repo number before w = (Done None, w1, t1) ->
  RemoveLabelForIssue owner repo number k w1 = ((Some resp, err), w2) ->
  StatusCode resp = 404 \/ err = None ->
  removeLabels owner repo number (before ++ [(k, v)]) w
  = (Done None, w2, t1 ++ [CallRemoveLabel owner repo number k]).
Proof.
  intros Hbefore Hcall Hpass.
  assert (removeLabels owner repo number [(k, v)] w1
          = (Done None, w2, [CallRemoveLabel owner repo number k]))
    as Hstep.
  { simpl. unfold bind at 1, callRemoveLabel. rewrite Hcall. simpl.
    rewrite bind_ret_l.
    destruct Hpass as [Hcode| ->]; [by rewrite Hcode|].
    by destruct (StatusCode resp =? 404). }
  by rewrite (removeLabels_app _ _ _ _ _ _ _ _ Hbefore), Hstep.
Qed.

(** X5.  Once the removal pass is through, [updateLabel] adds the
    selected label in one call and returns its name with whatever error
    that call gave: the name is returned even when the addition fails. *)
Theorem updateLabel_returns_the_selected_label
  (ro : RangeOrders) (owner repo : string) (number changes : Z) (w w1 : W)
  (t1 : list Call) (k : string) :
  removeLabels owner repo number (removeOrder ro) w = (Done None, w1, t1) ->
  selected changes (addOrder ro) = Some k ->
  updateLabel ro owner repo number changes w
  = (Done (k, (AddLabelsToIssue owner repo number [k] w1).1.2),
     (AddLabelsToIssue owner repo number [k] w1).2,
     t1 ++ [CallAddLabels owner repo number [k]]).
Proof.
  intros Hrun Hsel. unfold updateLabel.
  by rewrite (bind_run _ _ _ _ _ _ Hrun), addLabel_selected, Hsel.
Qed.

End ReconcilerSteps.

(** ** More of the handler, past the filters *)

Section PastTheFilters.

Context {W : Type} {gh : GitHub W}.

Lemma all_calls_weaken {A} (P P' : Call -> Prop) (m : M W A) :
  (forall c, P c -> P' c) -> all_calls P m -> all_calls P' m.
Proof. intros HPP Hm w. eapply Forall_impl; [apply Hm | done]. Qed.

Lemma all_calls_sizeAndLabel ro fuel r0 r1 number :
  all_calls (addressed r0 r1 number) (sizeAndLabel ro fuel r0 r1 number).
Proof.
  unfold sizeAndLabel. apply all_calls_bind.
  - eapply all_calls_weaken; [|apply all_calls_readPaginatedFileChanges].
    by intros c [? _].
  - intros [changes [e|]]; [apply all_calls_ret|].
    apply all_calls_bind.
    + eapply all_calls_weaken; [|apply all_calls_updateLabel].
      by intros c [? _].
    + intros [label [e|]]; apply all_calls_ret.
Qed.

End PastTheFilters.

Section RelevantDeliveries.

Context {W : Type} {gh : GitHub W}.

(** X6.  Every call of the delivery of an authenticated pull_request
    event for the configured repository is about the pull request the event
    names: the owner and the name from the repository's full name, and the
    event's number. *)
Theorem delivery_addresses_only_the_event_pull_request
  (cfg : Config) (ro : RangeOrders) (fuel : nat) (req : Request)
  (body : list byte) (payload : PullRequestEvent) (r0 r1 action : string)
  (number : Z) (w : W) :
  accepted cfg req body payload r0 r1 ->
  Action payload = Some action ->
  Number payload = Some number ->
  Forall (addressed r0 r1 number) (calls_of (processHook cfg ro fuel req w)).
Proof.
  intros Hacc Haction Hnumber.
  rewrite (processHook_accepted _ ro fuel _ _ _ _ _ _ _ w Hacc Haction Hnumber).
  destruct (negb (String.eqb action "opened")
            && negb (String.eqb action "synchronize")
            && negb (String.eqb action "reopened")); unfold calls_of; simpl.
  - by repeat constructor.
  - constructor; [done|]. apply all_calls_sizeAndLabel.
Qed.

(** X7.  When the aggregation of a relevant delivery returns an error,
    the handler answers 400, "Error reading PR changes", and has made no
    call but the parse and the listing calls: no label was removed or
    added. *)
Theorem aggregation_error_leaves_the_labels_untouched
  (cfg : Config) (ro : RangeOrders) (fuel : nat) (req : Request)
  (body : list byte) (payload : PullRequestEvent) (r0 r1 action : string)
  (number : Z) (w : W) (changes : Z) (e : error) (w1 : W) (t1 : list Call) :
  accepted cfg req body payload r0 r1 ->
  Action payload = Some action ->
  action ∈ codeActions ->
  Number payload = Some number ->
  readPaginatedFileChanges fuel r0 r1 number w
  = (Done (changes, Some e), w1, t1) ->
  processHook cfg ro fuel req w
  = (Done (JSON StatusBadRequest "Error reading PR changes"), w1,
     CallParseWebHook "pull_request" body :: t1)
  /\ Forall lists_files t1.
Proof.
  intros Hacc Haction Hin Hnumber Hrun.
  rewrite (processHook_accepted _ ro fuel _ _ _ _ _ _ _ w Hacc Haction Hnumber).
  rewrite (proj1 (in_codeActions action) Hin).
  rewrite (sizeAndLabel_aggregation_error ro _ _ _ _ _ _ _ _ _ Hrun).
  split; [done|].
  pose proof (all_calls_readPaginatedFileChanges fuel r0 r1 number w) as Hall.
  rewrite Hrun in Hall. unfold calls_of in Hall. simpl in Hall.
  eapply Forall_impl; [exact Hall | by intros c [_ ?]].
Qed.

(** X8.  When the aggregation of a relevant delivery returns a count, the
    reply follows the error of [updateLabel] for that count: 500, "Error
    processing request (1)", if it returned one, 200, "Success", if it
    returned none; the calls are the parse, those of the aggregation and
    those of the reconciliation, in that order. *)
Theorem reconciliation_decides_the_reply
  (cfg : Config) (ro : RangeOrders) (fuel : nat) (req : Request)
  (body : list byte) (payload : PullRequestEvent) (r0 r1 action : string)
  (number : Z) (w : W) (changes : Z) (w1 : W) (t1 : list Call)
  (label : string) (err : option error) (w2 : W) (t2 : list Call) :
  accepted cfg req body payload r0 r1 ->
  Action payload = Some action ->
  action ∈ codeActions ->
  Number payload = Some number ->
  readPaginatedFileChanges fuel r0 r1 number w
  = (Done (changes, None), w1, t1) ->
  updateLabel ro r0 r1 number changes w1 = (Done (label, err), w2, t2) ->
  processHook cfg ro fuel req w
  = (Done (match err with
           | Some _ =>
               JSON StatusInternalServerError "Error processing request (1)"
           | None => JSON StatusOK "Success"
           end),
     w2, CallParseWebHook "pull_request" body :: t1 ++ t2).
Proof.
  intros Hacc Haction Hin Hnumber Hrun Hupd.
  rewrite (processHook_accepted _ ro fuel _ _ _ _ _ _ _ w Hacc Haction Hnumber).
  rewrite (proj1 (in_codeActions action) Hin).
  unfold sizeAndLabel.
  rewrite (bind_run _ _ _ _ _ _ Hrun). cbv beta iota.
  rewrite (bind_run _ _ _ _ _ _ Hupd). simpl.
  destruct err; simpl; by rewrite app_nil_r.
Qed.

End RelevantDeliveries.

(** ** More of the EventFilter: the ways out before aggregation *)

Ltac past_signature Hsigned :=
  let Hsig := fresh "Hsig" in
  let Hbody := fresh "Hbody" in
  destruct Hsigned as [Hsig Hbody];
  unfold processHook; cbv zeta;
  rewrite Hsig, sign_not_empty, Hbody;
  rewrite (proj2 (validateSig_spec _ _ _) eq_refl).

Ltac past_parse Hevent Hparsed :=
  rewrite Hevent, String.eqb_refl; change (negb true) with false; cbv iota;
  unfold bind at 1, callParseWebHook; rewrite Hparsed; cbv beta iota;
  try (simpl asPullRequestEvent; rewrite bind_ret_l).

Section WaysOut.

Context {W : Type} {gh : GitHub W}.

(** X9.  A signed delivery whose event header is not pull_request is
    answered 200, "Skipping event type"; its body is not parsed and the
    upstream is not called. *)
Theorem other_event_types_are_skipped
  (cfg : Config) (ro : RangeOrders) (fuel : nat) (req : Request)
  (body : list byte) (w : W) :
  signed cfg req body ->
  GetHeader (Headers req) "X-GitHub-Event" <> "pull_request" ->
  processHook cfg ro fuel req w
  = (Done (JSON StatusOK "Skipping event type"), w, []).
Proof.
  intros Hsigned Hevent. past_signature Hsigned.
  by destruct (String.eqb_spec (GetHeader (Headers req) "X-GitHub-Event")
                 "pull_request").
Qed.

(** X10.  A request with a signature header whose body cannot be read is
    answered 400, "Malformed body", before the signature is looked at and
    without any call. *)
Theorem unreadable_body_is_malformed
  (cfg : Config) (ro : RangeOrders) (fuel : nat) (req : Request) (w : W) :
  GetHeader (Headers req) "X-Hub-Signature" <> "" ->
  Body req = None ->
  processHook cfg ro fuel req w
  = (Done (JSON StatusBadRequest "Malformed body"), w, []).
Proof.
  intros Hsig Hbody. unfold processHook. cbv zeta.
  destruct (String.eqb_spec (GetHeader (Headers req) "X-Hub-Signature") "")
    as [?|_]; [done|].
  by rewrite Hbody.
Qed.

(** X11.  A signed pull_request delivery whose body the library cannot
    parse is answered 400, "Malformed body", the parse being the only
    call. *)
Theorem unparseable_payload_is_malformed
  (cfg : Config) (ro : RangeOrders) (fuel : nat) (req : Request)
  (body : list byte) (e : error) (w : W) :
  signed cfg req body ->
  GetHeader (Headers req) "X-GitHub-Event" = "pull_request" ->
  ParseWebHook "pull_request" body = inr e ->
  processHook cfg ro fuel req w
  = (Done (JSON StatusBadRequest "Malformed body"), w,
     [CallParseWebHook "pull_request" body]).
Proof.
  intros Hsigned Hevent Hparsed. past_signature Hsigned.
  past_parse Hevent Hparsed. reflexivity.
Qed.

(** X12.  A signed pull_request delivery for a repository whose owner is
    not the configured one, or whose name is not the configured one when a
    name is configured, is answered 403, "Not configured for this
    repository", the parse being the only call. *)
Theorem other_repositories_are_forbidden
  (cfg : Config) (ro : RangeOrders) (fuel : nat) (req : Request)
  (body : list byte) (payload : PullRequestEvent) (repository : Repository)
  (fullName r0 r1 c0 : string) (rest cs : list string) (w : W) :
  signed cfg req body ->
  GetHeader (Headers req) "X-GitHub-Event" = "pull_request" ->
  ParseWebHook "pull_request" body = inl (PullRequest payload) ->
  Repo payload = Some repository ->
  FullName repository = Some fullName ->
  Split fullName "/" = r0 :: r1 :: rest ->
  Split (repoOrOrgName cfg) "/" = c0 :: cs ->
  r0 <> c0 \/ (exists c1 more, cs = c1 :: more /\ r1 <> c1) ->
  processHook cfg ro fuel req w
  = (Done (JSON StatusForbidden "Not configured for this repository"), w,
     [CallParseWebHook "pull_request" body]).
Proof.
  intros Hsigned Hevent Hparsed Hrepo Hname Hsplit Hcfg Hother.
  past_signature Hsigned. past_parse Hevent Hparsed.
  rewrite Hrepo. simpl deref. rewrite bind_ret_l.
  rewrite Hname. simpl deref. rewrite bind_ret_l.
  rewrite Hsplit, Hcfg. unfold index. simpl. rewrite !bind_ret_l.
  destruct (String.eqb_spec r0 c0) as [Heq|Hne0]; simpl; [|done].
  destruct Hother as [?|(c1 & more & -> & Hne)]; [done|]. simpl.
  unfold bind at 1. rewrite !bind_ret_l. simpl.
  by destruct (String.eqb_spec r1 c1) as [?|_].
Qed.

(** X13.  When the configured name has no "/" and the full name of the
    event's repository is that very name, with no "/" either, the
    repository check lets the event through: an action that is not relevant
    is skipped, and a relevant one makes the handler panic on the second
    component of the split when it builds the arguments of the aggregation,
    before any upstream call. *)
Theorem bare_full_name_panics_at_the_aggregation_call
  (cfg : Config) (ro : RangeOrders) (fuel : nat) (req : Request)
  (body : list byte) (payload : PullRequestEvent) (repository : Repository)
  (action : string) (w : W) :
  signed cfg req body ->
  GetHeader (Headers req) "X-GitHub-Event" = "pull_request" ->
  ParseWebHook "pull_request" body = inl (PullRequest payload) ->
  Repo payload = Some repository ->
  FullName repository = Some (repoOrOrgName cfg) ->
  has_byte "/" (repoOrOrgName cfg) = false ->
  Action payload = Some action ->
  (action ∈ codeActions ->
   processHook cfg ro fuel req w
   = (Panic (IndexOutOfRange 1 1), w,
      [CallParseWebHook "pull_request" body]))
  /\ (action ∉ codeActions ->
      processHook cfg ro fuel req w
      = (Done (JSON StatusOK "Skipping action"), w,
         [CallParseWebHook "pull_request" body])).
Proof.
  intros Hsigned Hevent Hparsed Hrepo Hname Hslash Haction.
  pose proof (in_codeActions action) as Hin.
  assert (processHook cfg ro fuel req w
          = if negb (String.eqb action "opened")
               && negb (String.eqb action "synchronize")
               && negb (String.eqb action "reopened")
            then (Done (JSON StatusOK "Skipping action"), w,
                  [CallParseWebHook "pull_request" body])
            else (Panic (IndexOutOfRange 1 1), w,
                  [CallParseWebHook "pull_request" body])) as ->.
  { past_signature Hsigned. past_parse Hevent Hparsed.
    rewrite Hrepo. simpl deref. rewrite bind_ret_l.
    rewrite Hname. simpl deref. rewrite bind_ret_l.
    rewrite (Split_no_sep _ _ Hslash). unfold index. simpl.
    rewrite !bind_ret_l, String.eqb_refl. simpl. rewrite bind_ret_l.
    rewrite Haction. simpl deref. rewrite bind_ret_l.
    by destruct (negb (String.eqb action "opened")
                 && negb (String.eqb action "synchronize")
                 && negb (String.eqb action "reopened")). }
  destruct (negb (String.eqb action "opened")
            && negb (String.eqb action "synchronize")
            && negb (String.eqb action "reopened")).
  - split; [|done]. intros Hyes%Hin. done.
  - split; [done|]. intros Hno. destruct Hno. by apply Hin.
Qed.

(** X14.  A signed pull_request delivery whose parsed payload has no
    repository, or a repository without a full name, makes the handler
    panic on the nil pointer right after the parse; the recovery of the
    router answers 500. *)
Theorem payload_without_repository_panics
  (cfg : Config) (ro : RangeOrders) (fuel : nat) (req : Request)
  (body : list byte) (payload : PullRequestEvent) (w : W) :
  signed cfg req body ->
  GetHeader (Headers req) "X-GitHub-Event" = "pull_request" ->
  ParseWebHook "pull_request" body = inl (PullRequest payload) ->
  Repo payload = None
  \/ (exists repository,
        Repo payload = Some repository /\ FullName repository = None) ->
  processHook cfg ro fuel req w
  = (Panic NilDereference, w, [CallParseWebHook "pull_request" body])
  /\ serve cfg ro fuel req w
     = (Done (JSON StatusInternalServerError ""), w,
        [CallParseWebHook "pull_request" body]).
Proof.
  intros Hsigned Hevent Hparsed Hnil.
  assert (processHook cfg ro fuel req w
          = (Panic NilDereference, w,
             [CallParseWebHook "pull_request" body])) as Hpanic.
  { past_signature Hsigned. past_parse Hevent Hparsed.
    destruct Hnil as [Hrepo|(repository & Hrepo & Hname)].
    - rewrite Hrepo. reflexivity.
    - rewrite Hrepo. simpl deref. rewrite bind_ret_l.
      rewrite Hname. reflexivity. }
  split; [done|]. unfold serve. by rewrite Hpanic.
Qed.

(** X23.  A signed pull_request delivery whose body parses without an
    error to something that is not a pull request event, as the body null
    parses to nil, makes the handler panic on the type assertion right after
    the parse; the recovery of the router answers 500. *)
Theorem parsed_event_of_another_type_panics
  (cfg : Config) (ro : RangeOrders) (fuel : nat) (req : Request)
  (body : list byte) (e : Event) (w : W) :
  signed cfg req body ->
  GetHeader (Headers req) "X-GitHub-Event" = "pull_request" ->
  ParseWebHook "pull_request" body = inl e ->
  (forall payload, e <> PullRequest payload) ->
  processHook cfg ro fuel req w
  = (Panic InterfaceConversion, w, [CallParseWebHook "pull_request" body])
  /\ serve cfg ro fuel req w
     = (Done (JSON StatusInternalServerError ""), w,
        [CallParseWebHook "pull_request" body]).
Proof.
  intros Hsigned Hevent Hparsed Hother.
  assert (processHook cfg ro fuel req w
          = (Panic InterfaceConversion, w,
             [CallParseWebHook "pull_request" body])) as Hpanic.
  { past_signature Hsigned.
    rewrite Hevent, String.eqb_refl. change (negb true) with false.
    cbv iota. unfold bind at 1, callParseWebHook. rewrite Hparsed.
    cbv beta iota.
    destruct e as [|payload|type]; [reflexivity| |reflexivity].
    by destruct (Hother payload). }
  split; [done|]. unfold serve. by rewrite Hpanic.
Qed.

End WaysOut.

(** ** How a delivery can end *)

Section Endings.

Context {W : Type} {gh : GitHub W}.

Lemma ends_in_ret {A} (P : A -> Prop) Q (a : A) :
  P a -> ends_in (W := W) P Q (ret a).
Proof. by intros HP w. Qed.

Lemma ends_in_bind {A B} (P : B -> Prop) Q (m : M W A) (k : A -> M W B) :
  ends_in (fun _ => True) Q m -> (forall a, ends_in P Q (k a)) ->
  ends_in P Q (bind m k).
Proof.
  intros Hm Hk w. specialize (Hm w). unfold outcome_of, bind in *.
  destruct (m w) as [[[a|p|] w1] t1]; simpl in *; try done.
  specialize (Hk a w1). unfold outcome_of in Hk.
  by destruct (k a w1) as [[o w2] t2].
Qed.

Lemma ends_in_deref {A} (Q : panic -> Prop) (p : option A) :
  Q NilDereference -> ends_in (W := W) (fun _ => True) Q (deref p).
Proof. intros HQ w. by destruct p. Qed.

Lemma ends_in_asPullRequestEvent (Q : panic -> Prop) e :
  Q InterfaceConversion ->
  ends_in (W := W) (fun _ => True) Q (asPullRequestEvent e).
Proof. intros HQ w. by destruct e. Qed.

Lemma Split_not_nil s sep : Split s sep <> [].
Proof.
  destruct s as [|c s]; simpl; [done|].
  destruct (Ascii.eqb c sep); [done|]. by destruct (Split s sep).
Qed.

Lemma ends_in_index_Split_0 (Q : panic -> Prop) s sep :
  ends_in (W := W) (fun _ => True) Q (index (Split s sep) 0).
Proof.
  intros w. unfold index.
  pose proof (Split_not_nil s sep). by destruct (Split s sep).
Qed.

Lemma ends_in_index_Split_1 (Q : panic -> Prop) s sep :
  Q (IndexOutOfRange 1 1) ->
  ends_in (W := W) (fun _ => True) Q (index (Split s sep) 1).
Proof.
  intros HQ w. unfold index.
  pose proof (Split_not_nil s sep).
  by destruct (Split s sep) as [|a [|b l]].
Qed.

Lemma ends_in_callParseWebHook Q event body :
  ends_in (fun _ => True) Q (callParseWebHook event body).
Proof. by intros w. Qed.

Lemma ends_in_callListFiles Q owner repo number opts :
  ends_in (fun _ => True) Q (callListFiles owner repo number opts).
Proof.
  intros w. unfold callListFiles, outcome_of.
  by destruct (ListFiles owner repo number opts w).
Qed.

Lemma ends_in_callRemoveLabel Q owner repo number k :
  ends_in (fun _ => True) Q (callRemoveLabel owner repo number k).
Proof.
  intros w. unfold callRemoveLabel, outcome_of.
  by destruct (RemoveLabelForIssue owner repo number k w).
Qed.

Lemma ends_in_callAddLabels Q owner repo number new :
  ends_in (fun _ => True) Q (callAddLabels owner repo number new).
Proof.
  intros w. unfold callAddLabels, outcome_of.
  by destruct (AddLabelsToIssue owner repo number new w).
Qed.

Lemma ends_in_sumChanges (Q : panic -> Prop) cfs : forall changes,
  Q NilDereference ->
  ends_in (W := W) (fun _ => True) Q (sumChanges cfs changes).
Proof.
  induction cfs as [|cf cfs IH]; intros changes HQ; simpl.
  - by apply ends_in_ret.
  - apply ends_in_bind; [by apply ends_in_deref | intros; by apply IH].
Qed.

Lemma ends_in_readPages (Q : panic -> Prop) fuel owner repo number :
  Q NilDereference ->
  forall opts changes,
    ends_in (fun _ => True) Q (readPages fuel owner repo number opts changes).
Proof.
  intros HQ. induction fuel as [|fuel IH]; intros opts changes; simpl.
  - by intros w.
  - apply ends_in_bind; [apply ends_in_callListFiles|].
    intros [[cfs resp] [e|]]; [by apply ends_in_ret|].
    apply ends_in_bind; [by apply ends_in_deref|]. intros r.
    destruct (negb _); [by apply ends_in_ret|].
    apply ends_in_bind; [by apply ends_in_sumChanges|]. intros changes'.
    destruct (_ =? _); [by apply ends_in_ret | apply IH].
Qed.

Lemma ends_in_removeLabels (Q : panic -> Prop) owner repo number order :
  Q NilDereference ->
  ends_in (fun _ => True) Q (removeLabels owner repo number order).
Proof.
  intros HQ. induction order as [|[k v] order IH]; simpl;
    [by apply ends_in_ret|].
  apply ends_in_bind; [apply ends_in_callRemoveLabel|]. intros [res err].
  apply ends_in_bind; [by apply ends_in_deref|]. intros r.
  destruct (_ =? _); [done|]. destruct err; [by apply ends_in_ret | done].
Qed.

Lemma ends_in_addLabel (Q : panic -> Prop) owner repo number changes order :
  ends_in (fun _ => True) Q (addLabel owner repo number changes order).
Proof.
  induction order as [|[k v] order IH]; simpl; [by apply ends_in_ret|].
  destruct (_ && _); [|done].
  apply ends_in_bind; [apply ends_in_callAddLabels|].
  intros [[ls resp] [e|]]; by apply ends_in_ret.
Qed.

Lemma ends_in_updateLabel (Q : panic -> Prop) ro owner repo number changes :
  Q NilDereference ->
  ends_in (fun _ => True) Q (updateLabel ro owner repo number changes).
Proof.
  intros HQ. unfold updateLabel.
  apply ends_in_bind; [by apply ends_in_removeLabels|].
  intros [e|]; [by apply ends_in_ret | apply ends_in_addLabel].
Qed.

Ltac ends_step :=
  lazymatch goal with
  | |- ends_in _ _ (ret _) =>
      apply ends_in_ret; first [exact I | unfold handlerStatus; simpl; tauto]
  | |- ends_in _ _ (deref _) =>
      apply ends_in_deref; unfold handlerPanic; auto
  | |- ends_in _ _ (asPullRequestEvent _) =>
      apply ends_in_asPullRequestEvent; unfold handlerPanic; auto
  | |- ends_in _ _ (index (Split _ _) 0) => apply ends_in_index_Split_0
  | |- ends_in _ _ (index (Split _ _) 1) =>
      apply ends_in_index_Split_1; unfold handlerPanic; auto
  | |- ends_in _ _ (callParseWebHook _ _) => apply ends_in_callParseWebHook
  | |- ends_in _ _ (readPaginatedFileChanges _ _ _ _) =>
      apply ends_in_readPages; unfold handlerPanic; auto
  | |- ends_in _ _ (updateLabel _ _ _ _ _) =>
      apply ends_in_updateLabel; unfold handlerPanic; auto
  | |- ends_in _ _ (bind _ _) => apply ends_in_bind; [|intros ?]
  | |- ends_in _ _ (if ?b then _ else _) => destruct b
  | |- ends_in _ _ (match ?x with _ => _ end) => destruct x
  end.

Lemma processHook_ends cfg ro fuel req :
  ends_in handlerStatus handlerPanic (processHook cfg ro fuel req).
Proof. unfold processHook. cbv zeta. repeat ends_step. Qed.

(** X15.  Whatever the request and whatever the upstream answers, a
    delivery that ends is answered 200, 400, 403 or 500, or panics on a nil
    pointer, on the type assertion of the parsed event, or on index 1 of a
    split of one component, and no other panic can occur: the first
    component of either split is always there; behind the recovery of the
    router the panic is a 500, so that [serve] never panics. *)
Theorem delivery_ends_with_a_handler_status
  (cfg : Config) (ro : RangeOrders) (fuel : nat) (req : Request) (w : W) :
  match outcome_of (processHook cfg ro fuel req w) with
  | Done r => handlerStatus r
  | Panic p => handlerPanic p
  | OutOfFuel => True
  end
  /\ match outcome_of (serve cfg ro fuel req w) with
     | Done r => handlerStatus r
     | Panic _ => False
     | OutOfFuel => True
     end.
Proof.
  pose proof (processHook_ends cfg ro fuel req w) as Hends.
  split; [exact Hends|].
  unfold serve, outcome_of in *.
  destruct (processHook cfg ro fuel req w) as [[[r|p|] w1] t1]; simpl in *;
    try done.
  unfold handlerStatus. simpl. tauto.
Qed.

End Endings.

(** ** More of the ChangeAggregator *)

Section AggregatorEdges.

Context {W : Type} {gh : GitHub W}.

(** X16.  The running total is a Go [int]: over the pages the upstream
    serves, [readPaginatedFileChanges] returns the sum of the per-file
    counts reduced to 64 bits, two's complement, so that a sum beyond
    [MaxInt64] comes back wrapped around. *)
Theorem readPaginatedFileChanges_sums_in_64_bits
  (owner repo : string) (number : Z) (w : W)
  (pages : list (Z * list CommitFile)) (w' : W) (fuel : nat) :
  serves owner repo number 0 w pages w' ->
  Forall (Forall counted) pages.*2 ->
  (length pages <= fuel)%nat ->
  readPaginatedFileChanges fuel owner repo number w
  = (Done (int (totalChanges pages), None), w',
     listingCalls owner repo number pages).
Proof.
  intros Hserves Hall Hfuel. unfold readPaginatedFileChanges.
  by rewrite (readPages_serves _ _ _ _ _ _ _ Hserves Hall).
Qed.

Lemma sumChanges_uncounted pre cf post : forall changes (w : W),
  Forall counted pre ->
  Changes cf = None ->
  sumChanges (pre ++ cf :: post) changes w = (Panic NilDereference, w, []).
Proof.
  induction pre as [|cf0 pre IH]; intros changes w Hall Hnil; simpl.
  - unfold bind. by rewrite Hnil.
  - apply Forall_cons in Hall as [[c Hc] Hall].
    unfold bind. rewrite Hc. simpl. by rewrite IH.
Qed.

(** X17.  A listed file that carries no changes count makes
    [readPaginatedFileChanges] panic on the nil pointer while it sums the
    page, instead of returning a count or an error. *)
Theorem file_without_changes_count_panics
  (owner repo : string) (number : Z) (w : W)
  (pre : list CommitFile) (cf : CommitFile) (post : list CommitFile)
  (r : Response) (w' : W) (fuel : nat) :
  ListFiles owner repo number {| Page := 0; PerPage := 100 |} w
  = ((pre ++ cf :: post, Some r, None), w') ->
  StatusCode r = 200 ->
  Forall counted pre ->
  Changes cf = None ->
  readPaginatedFileChanges (S fuel) owner repo number w
  = (Panic NilDereference, w',
     [CallListFiles owner repo number {| Page := 0; PerPage := 100 |}]).
Proof.
  intros Hcall Hcode Hall Hnil. unfold readPaginatedFileChanges. simpl.
  unfold bind at 1, callListFiles. rewrite Hcall. simpl.
  rewrite bind_ret_l, Hcode. simpl.
  unfold bind. by rewrite sumChanges_uncounted.
Qed.

Lemma readPages_endless owner repo number :
  (forall opts w, exists cfs r w',
      ListFiles owner repo number opts w = ((cfs, Some r, None), w')
      /\ StatusCode r = 200 /\ Forall counted cfs /\ NextPage r <> 0) ->
  forall fuel opts changes w,
    int changes = changes ->
    outcome_of (readPages fuel owner repo number opts changes w) = OutOfFuel
    /\ length (calls_of (readPages fuel owner repo number opts changes w))
       = fuel.
Proof.
  intros Hmore. induction fuel as [|fuel IH]; intros opts changes w Hch;
    [done|].
  destruct (Hmore opts w) as (cfs & r & w' & Hcall & Hcode & Hall & Hnext).
  assert (readPages (S fuel) owner repo number opts changes w
          = (let '(o, w2, t2) :=
               readPages fuel owner repo number
                 {| Page := NextPage r; PerPage := PerPage opts |}
                 (int (changes
                       + foldr (fun cf acc => changesOf cf + acc) 0 cfs))
                 w' in
             (o, w2, CallListFiles owner repo number opts :: t2))) as ->.
  { simpl. unfold bind at 1, callListFiles. rewrite Hcall. simpl.
    unfold bind at 1. simpl. rewrite Hcode. simpl.
    unfold bind at 1. rewrite (sumChanges_counted cfs changes w' Hall Hch).
    simpl. destruct (Z.eqb_spec (NextPage r) 0) as [?|_]; [done|].
    by destruct (readPages fuel owner repo number _ _ w') as [[??]?]. }
  destruct (IH {| Page := NextPage r; PerPage := PerPage opts |}
              (int (changes
                    + foldr (fun cf acc => changesOf cf + acc) 0 cfs))
              w' (int_idem _)) as [Hout Hlen].
  destruct (readPages fuel owner repo number _ _ w') as [[o w2] t2].
  unfold outcome_of, calls_of in *. simpl in *. by rewrite Hout, Hlen.
Qed.

(** X18.  The loop of [readPaginatedFileChanges] has no bound of its
    own: against an upstream that answers every listing call with a good
    page and signals a next page, it has not returned after any number of
    iterations, and has made one call in each. *)
Theorem endless_listing_never_returns
  (owner repo : string) (number : Z) :
  (forall opts w, exists cfs r w',
      ListFiles owner repo number opts w = ((cfs, Some r, None), w')
      /\ StatusCode r = 200 /\ Forall counted cfs /\ NextPage r <> 0) ->
  forall fuel w,
    outcome_of (readPaginatedFileChanges fuel owner repo number w)
    = OutOfFuel
    /\ length (calls_of (readPaginatedFileChanges fuel owner repo number w))
       = fuel.
Proof.
  intros Hmore fuel w. unfold readPaginatedFileChanges.
  by apply readPages_endless.
Qed.

End AggregatorEdges.

(** ** More of the SizeClassifier *)

Section Thresholds.

Lemma int64_range c : - 2 ^ 63 <= int64 c < 2 ^ 63.
Proof.
  unfold int64.
  pose proof (Z.mod_pos_bound (c + 2 ^ 63) (2 ^ 64) ltac:(lia)). lia.
Qed.

(** X19.  Whatever the order of the range, the second loop of
    [updateLabel] selects the label of the default table by the thresholds
    0, 10, 30, 100, 500 and 1000 on the count as an [int64]; a negative
    count selects no label. *)
Theorem default_table_selects_by_thresholds
  (c : Z) (order : list (string * Size)) :
  ranges_over defaultSizes order ->
  selected c order = bucket (int64 c).
Proof.
  intros Hord%ranges_over_default.
  pose proof (int64_range c) as Hrange.
  unfold bucket.
  destruct (Z.ltb_spec (int64 c) 0).
  { apply selected_none. intros k v Hin. rewrite Hord in Hin.
    entries Hin; simpl; lia. }
  assert (forall k v,
            (k, v) ∈ defaultEntries -> Min v <= int64 c <= Max v ->
            selected c order = Some k) as Hsel.
  { intros k v Hin Hv. apply selected_the_only.
    - exists v. by rewrite Hord.
    - intros k' v' Hin'. rewrite Hord in Hin'. intros Hv'.
      entries Hin; entries Hin'; unfold MaxInt64 in *; simpl in *;
        solve [reflexivity | lia]. }
  destruct (Z.leb_spec (int64 c) 9); [|destruct (Z.leb_spec (int64 c) 29);
    [|destruct (Z.leb_spec (int64 c) 99); [|destruct (Z.leb_spec (int64 c) 499);
    [|destruct (Z.leb_spec (int64 c) 999)]]]];
    [eapply (Hsel _ {| Min := 0; Max := 9 |})
    |eapply (Hsel _ {| Min := 10; Max := 29 |})
    |eapply (Hsel _ {| Min := 30; Max := 99 |})
    |eapply (Hsel _ {| Min := 100; Max := 499 |})
    |eapply (Hsel _ {| Min := 500; Max := 999 |})
    |eapply (Hsel _ {| Min := 1000; Max := MaxInt64 |})];
    first [unfold MaxInt64; simpl; lia
          |unfold defaultEntries; repeat first [left | right]].
Qed.

End Thresholds.

(** ** More of the SignatureValidator *)

Section SignatureFormat.

Import Crypto.

Lemma hex_digit_lower n : 0 <= n < 16 -> lower_hex (hex_digit n).
Proof.
  intros Hn. rewrite <- (Z2Nat.id n) by lia.
  assert (Z.to_nat n < 16)%nat as Hk by lia.
  revert Hk. generalize (Z.to_nat n). clear Hn. intros k Hk.
  do 16 (destruct k as [|k];
         [vm_compute; repeat first [left; reflexivity | right]|]).
  lia.
Qed.

Lemma sprintf_x_length bs :
  String.length (sprintf_x bs) = (2 * length bs)%nat.
Proof. induction bs as [|b bs IH]; simpl; [done | rewrite IH; lia]. Qed.

Lemma sprintf_x_lower_hex bs :
  Forall lower_hex (list_ascii_of_string (sprintf_x bs)).
Proof.
  induction bs as [|b bs IH]; simpl; [constructor|].
  pose proof (byte_to_Z_range b) as Hb. change (2 ^ 8) with 256 in Hb.
  constructor; [|constructor; [|done]]; apply hex_digit_lower.
  - split; [apply Z.div_pos; lia | apply Z.div_lt_upper_bound; lia].
  - apply Z.mod_pos_bound. lia.
Qed.

Lemma sha1_Z_length msg : length (sha1_Z msg) = 20%nat.
Proof.
  unfold sha1_Z.
  by destruct (fold_left compress _ sha1_init) as [[[[h0 h1] h2] h3] h4].
Qed.

Lemma hmac_sha1_length key body : length (hmac_sha1 key body) = 20%nat.
Proof.
  unfold hmac_sha1, hmac_sha1_Z. by rewrite length_map, sha1_Z_length.
Qed.

(** X20.  A signature that [validateSig] accepts is the five bytes
    "sha1=" followed by exactly forty lowercase hexadecimal digits: an
    upper-case digest, a digest without the prefix or of another length is
    rejected. *)
Theorem accepted_signature_is_sha1_and_forty_lowercase_hex_digits
  (cfg : Config) (sig : string) (body : list byte) :
  validateSig cfg sig body = None ->
  exists digest,
    sig = "sha1=" +:+ digest
    /\ String.length digest = 40%nat
    /\ Forall lower_hex (list_ascii_of_string digest).
Proof.
  intros ->%validateSig_spec. unfold sign.
  eexists. split; [done|]. split.
  - by rewrite sprintf_x_length, hmac_sha1_length.
  - apply sprintf_x_lower_hex.
Qed.

End SignatureFormat.

(** ** The payload fields the handler dereferences late *)

Section LateFields.

Context {W : Type} {gh : GitHub W}.

Lemma processHook_past_the_repository_check
  cfg ro fuel req body payload r0 r1 w :
  accepted cfg req body payload r0 r1 ->
  processHook cfg ro fuel req w
  = (let '(o, w1, t) :=
       (let* action := deref (Action payload) in
        if negb (String.eqb action "opened")
           && negb (String.eqb action "synchronize")
           && negb (String.eqb action "reopened")
        then ret (JSON StatusOK "Skipping action")
        else
          let* number := deref (Number payload) in
          sizeAndLabel ro fuel r0 r1 number) w in
     (o, w1, CallParseWebHook "pull_request" body :: t)).
Proof.
  intros [Hsig Hbody Hevent Hparsed
            (repository & fullName & rest & Hrepo & Hname & Hsplit) Hcfg].
  unfold processHook. cbv zeta.
  rewrite Hsig, sign_not_empty, Hbody.
  rewrite (proj2 (validateSig_spec cfg _ body) eq_refl).
  past_parse Hevent Hparsed.
  rewrite Hrepo. simpl deref. rewrite bind_ret_l.
  rewrite Hname. simpl deref. rewrite bind_ret_l.
  rewrite Hsplit.
  change (index (r0 :: r1 :: rest) 0) with (ret (W := W) r0).
  rewrite bind_ret_l.
  assert (forall k : bool -> M W Reply,
            bind (W := W) (index (Split (repoOrOrgName cfg) "/") 0)
              (fun c0 =>
                 if negb (String.eqb r0 c0) then
                   ret (JSON StatusForbidden
                             "Not configured for this repository")
                 else
                   bind (if (1 <? length (Split (repoOrOrgName cfg) "/"))%nat
                         then
                           bind (index (r0 :: r1 :: rest) 1)
                             (fun r1' =>
                                bind (index (Split (repoOrOrgName cfg) "/") 1)
                                  (fun c1 =>
                                     ret (negb (String.eqb r1' c1))))
                         else ret false) k) w
            = k false w) as Hcheck.
  { intros k. destruct Hcfg as [->|[more ->]]; unfold index; simpl.
    - rewrite bind_ret_l, String.eqb_refl. simpl. by rewrite bind_ret_l.
    - rewrite bind_ret_l, String.eqb_refl. simpl.
      unfold bind at 1. rewrite !bind_ret_l. simpl.
      rewrite String.eqb_refl. simpl.
      by destruct (k false w) as [[??]?]. }
  rewrite Hcheck.
  destruct (Action payload) as [action|]; simpl deref; [|reflexivity].
  rewrite !bind_ret_l.
  destruct (negb (String.eqb action "opened")
            && negb (String.eqb action "synchronize")
            && negb (String.eqb action "reopened")); [done|].
  change (index (r0 :: r1 :: rest) 1) with (ret (W := W) r1).
  rewrite bind_ret_l. reflexivity.
Qed.

(** X21.  An authenticated pull_request event for the configured
    repository whose payload has no action, or a relevant action and no
    number, makes the handler panic on the nil pointer before any upstream
    call. *)
Theorem payload_without_action_or_number_panics
  (cfg : Config) (ro : RangeOrders) (fuel : nat) (req : Request)
  (body : list byte) (payload : PullRequestEvent) (r0 r1 : string) (w : W) :
  accepted cfg req body payload r0 r1 ->
  Action payload = None
  \/ (exists action,
        Action payload = Some action /\ action ∈ codeActions
        /\ Number payload = None) ->
  processHook cfg ro fuel req w
  = (Panic NilDereference, w, [CallParseWebHook "pull_request" body]).
Proof.
  intros Hacc Hnil.
  rewrite (processHook_past_the_repository_check _ ro fuel _ _ _ _ _ w Hacc).
  destruct Hnil as [Haction|(action & Haction & Hin & Hnumber)];
    rewrite Haction; [done|].
  simpl deref. rewrite bind_ret_l.
  rewrite (proj1 (in_codeActions action) Hin). by rewrite Hnumber.
Qed.

End LateFields.

(** ** What an upstream call presupposes *)

Section Gate.

Context {W : Type} {gh : GitHub W}.

Lemma Exists_bind_quiet {A B} (m : M W A) (k : A -> M W B) w :
  all_calls (fun c => upstream c = false) m ->
  Exists (fun c => upstream c = true) (calls_of (bind m k w)) ->
  exists a, outcome_of (m w) = Done a
            /\ Exists (fun c => upstream c = true)
                      (calls_of (k a (world_of (m w)))).
Proof.
  intros Hm. rewrite calls_bind. intros [Hin|Hin]%Exists_app.
  - specialize (Hm w). apply Exists_exists in Hin as (c & Hc & Hup).
    rewrite Forall_forall in Hm. specialize (Hm c Hc). congruence.
  - destruct (outcome_of (m w)) as [a|p|]; [by exists a|..];
      by apply Exists_nil in Hin.
Qed.

Lemma outcome_deref {A} (p : option A) (w : W) a :
  outcome_of (deref p w) = Done a -> p = Some a.
Proof. destruct p; [|done]. by intros [= ->]. Qed.

Lemma all_calls_index {A} P (l : list A) i :
  all_calls (W := W) P (index l i).
Proof.
  unfold index. destruct (l !! i); [apply all_calls_ret | apply all_calls_throw].
Qed.

(** X22.  The handler reaches the upstream only for a delivery that is
    signed with the shared secret, whose event header says pull_request,
    whose body the library parses, and whose action is opened, synchronize
    or reopened: when any of its calls is an upstream call, all of these
    hold. *)
Theorem upstream_is_reached_only_for_signed_relevant_events
  (cfg : Config) (ro : RangeOrders) (fuel : nat) (req : Request) (w : W) :
  Exists (fun c => upstream c = true)
         (calls_of (processHook cfg ro fuel req w)) ->
  exists body payload action,
    signed cfg req body
    /\ GetHeader (Headers req) "X-GitHub-Event" = "pull_request"
    /\ ParseWebHook "pull_request" body = inl (PullRequest payload)
    /\ Action payload = Some action
    /\ action ∈ codeActions.
Proof.
  unfold processHook. cbv zeta.
  destruct (String.eqb _ ""); [by intros ?%Exists_nil|].
  destruct (Body req) as [body|] eqn:Hbody; [|by intros ?%Exists_nil].
  destruct (validateSig cfg _ body) as [e|] eqn:Hsig;
    [by intros ?%Exists_nil|].
  apply validateSig_spec in Hsig.
  destruct (String.eqb_spec (GetHeader (Headers req) "X-GitHub-Event")
              "pull_request") as [Hevent|_];
    [|by intros ?%Exists_nil].
  change (negb true) with false. cbv iota.
  rewrite Hevent. rewrite calls_bind.
  unfold callParseWebHook at 1 2 3, calls_of at 1, outcome_of, world_of.
  simpl.
  intros Hup. apply Exists_cons in Hup as [?|Hup]; [done|].
  destruct (ParseWebHook "pull_request" body) as [ev|e] eqn:Hparsed;
    [|by apply Exists_nil in Hup].
  apply Exists_bind_quiet in Hup as (payload & Hev & Hup).
  2:{ intros w0. destruct ev; constructor. }
  assert (ev = PullRequest payload) as ->.
  { destruct ev; [done| |done]. by injection Hev as ->. }
  apply Exists_bind_quiet in Hup as (repository & _ & Hup);
    [|apply all_calls_deref].
  apply Exists_bind_quiet in Hup as (fullName & _ & Hup);
    [|apply all_calls_deref].
  apply Exists_bind_quiet in Hup as (r0 & _ & Hup);
    [|apply all_calls_index].
  apply Exists_bind_quiet in Hup as (c0 & _ & Hup);
    [|apply all_calls_index].
  destruct (negb (String.eqb r0 c0)); [by apply Exists_nil in Hup|].
  apply Exists_bind_quiet in Hup as (other & _ & Hup).
  2:{ destruct (_ <? _)%nat; [|apply all_calls_ret].
      apply all_calls_bind; [apply all_calls_index|]. intros r1.
      apply all_calls_bind; [apply all_calls_index|]. intros c1.
      apply all_calls_ret. }
  destruct other; [by apply Exists_nil in Hup|].
  apply Exists_bind_quiet in Hup as (action & Haction & Hup);
    [|apply all_calls_deref].
  apply outcome_deref in Haction.
  destruct (negb (String.eqb action "opened")
            && negb (String.eqb action "synchronize")
            && negb (String.eqb action "reopened")) eqn:Hrelevant;
    [by apply Exists_nil in Hup|].
  exists body, payload, action. repeat split; try done.
  by apply in_codeActions.
Qed.

End Gate.

(** ** The further properties at work *)

Section MoreRuns.

Local Hint Extern 0 (GitHub _) =>
  exact (Scripted.client Fixture.known) : typeclass_instances.

Lemma opened_is_accepted :
  accepted Fixture.cfg (Fixture.request "s3cret" "acme/widget" "opened")
    (Fixture.body "acme/widget" "opened")
    (Fixture.payload "acme/widget" "opened") "acme" "widget".
Proof.
  split; try (vm_compute; reflexivity).
  - exists {| FullName := Some "acme/widget" |}, "acme/widget", [].
    by vm_compute.
  - right. exists []. reflexivity.
Defined.

Lemma opened_is_relevant : "opened" ∈ codeActions.
Proof. unfold codeActions. left. Defined.

Lemma removal_error_aborts_reconciliation_witness :
  updateLabel Fixture.orders "acme" "widget" 7 47
    [Incomplete.notFound;
     Scripted.Removed (Scripted.status 500 "500 Internal Server Error")
                      (Some "500 Internal Server Error");
     Incomplete.notFound]
  = (Done ("", Some "500 Internal Server Error"), [Incomplete.notFound],
     [CallRemoveLabel "acme" "widget" 7 "size/XS";
      CallRemoveLabel "acme" "widget" 7 "size/S"]).
Proof.
  apply (removal_error_aborts_reconciliation
           Fixture.orders "acme" "widget" 7 47 _
           [("size/XS", {| Min := 0; Max := 9 |})]
           "size/S" {| Min := 10; Max := 29 |} (drop 2 defaultEntries)
           [Scripted.Removed (Scripted.status 500 "500 Internal Server Error")
                             (Some "500 Internal Server Error");
            Incomplete.notFound]
           [CallRemoveLabel "acme" "widget" 7 "size/XS"]
           {| StatusCode := 500; Status := "500 Internal Server Error";
              NextPage := 0 |}
           "500 Internal Server Error" [Incomplete.notFound]);
    [reflexivity | reflexivity | reflexivity | simpl; lia].
Defined.

Lemma removal_passes_over_404_or_no_error_witness :
  removeLabels "acme" "widget" 7
    ([("size/XS", {| Min := 0; Max := 9 |})]
     ++ [("size/S", {| Min := 10; Max := 29 |})])
    [Scripted.Removed (Scripted.ok 0) None; Incomplete.notFound]
  = (Done None, [],
     [CallRemoveLabel "acme" "widget" 7 "size/XS"]
     ++ [CallRemoveLabel "acme" "widget" 7 "size/S"]).
Proof.
  apply (removal_passes_over_404_or_no_error "acme" "widget" 7 _
           [("size/XS", {| Min := 0; Max := 9 |})]
           "size/S" {| Min := 10; Max := 29 |} [Incomplete.notFound]
           [CallRemoveLabel "acme" "widget" 7 "size/XS"]
           {| StatusCode := 404; Status := "404 Not Found"; NextPage := 0 |}
           (Some "404 Not Found") []);
    [reflexivity | reflexivity | by left].
Defined.

Lemma updateLabel_returns_the_selected_label_witness :
  updateLabel Fixture.orders "acme" "widget" 7 47
    (replicate 6 Incomplete.notFound
     ++ [Scripted.Added [] (Scripted.status 403 "403 Forbidden")
                        (Some "403 Forbidden")])
  = (Done ("size/M", Some "403 Forbidden"), [],
     map (CallRemoveLabel "acme" "widget" 7) defaultEntries.*1
     ++ [CallAddLabels "acme" "widget" 7 ["size/M"]]).
Proof.
  pose proof (updateLabel_returns_the_selected_label
                Fixture.orders "acme" "widget" 7 47
                (replicate 6 Incomplete.notFound
                 ++ [Scripted.Added [] (Scripted.status 403 "403 Forbidden")
                                    (Some "403 Forbidden")])
                [Scripted.Added [] (Scripted.status 403 "403 Forbidden")
                                (Some "403 Forbidden")]
                (map (CallRemoveLabel "acme" "widget" 7) defaultEntries.*1)
                "size/M") as Hrun.
  apply Hrun; reflexivity.
Defined.

Lemma delivery_addresses_only_the_event_pull_request_witness :
  Forall (addressed "acme" "widget" 7)
    (calls_of
       (processHook Fixture.cfg Fixture.orders 10
          (Fixture.request "s3cret" "acme/widget" "opened")
          (Scripted.Files [Fixture.file 47] (Scripted.ok 0) None
           :: replicate 6 Incomplete.notFound
           ++ [Scripted.Added ["size/M"] (Scripted.ok 0) None]))).
Proof.
  apply (delivery_addresses_only_the_event_pull_request
           Fixture.cfg Fixture.orders 10 _ _ _ "acme" "widget" "opened" 7 _
           opened_is_accepted); reflexivity.
Defined.

Lemma aggregation_error_leaves_the_labels_untouched_witness :
  processHook Fixture.cfg Fixture.orders 10
    (Fixture.request "s3cret" "acme/widget" "opened")
    [Scripted.Files [] (Scripted.status 502 "502 Bad Gateway") None]
  = (Done (JSON StatusBadRequest "Error reading PR changes"), [],
     [CallParseWebHook "pull_request" (Fixture.body "acme/widget" "opened");
      CallListFiles "acme" "widget" 7 {| Page := 0; PerPage := 100 |}])
  /\ Forall lists_files
       [CallListFiles "acme" "widget" 7 {| Page := 0; PerPage := 100 |}].
Proof.
  apply (aggregation_error_leaves_the_labels_untouched
           Fixture.cfg Fixture.orders 10 _ _ _ "acme" "widget" "opened" 7 _
           0 "Unable to get changed files. Status code: 502 Bad Gateway"
           [] [CallListFiles "acme" "widget" 7 {| Page := 0; PerPage := 100 |}]
           opened_is_accepted);
    [reflexivity | exact opened_is_relevant | reflexivity | reflexivity].
Defined.

Lemma reconciliation_decides_the_reply_witness :
  processHook Fixture.cfg Fixture.orders 10
    (Fixture.request "s3cret" "acme/widget" "opened")
    [Scripted.Files [Fixture.file 47] (Scripted.ok 0) None;
     Scripted.Removed (Scripted.status 500 "500 Internal Server Error")
                      (Some "500 Internal Server Error")]
  = (Done (JSON StatusInternalServerError "Error processing request (1)"),
     [],
     CallParseWebHook "pull_request" (Fixture.body "acme/widget" "opened")
     :: [CallListFiles "acme" "widget" 7 {| Page := 0; PerPage := 100 |}]
     ++ [CallRemoveLabel "acme" "widget" 7 "size/XS"]).
Proof.
  apply (reconciliation_decides_the_reply
           Fixture.cfg Fixture.orders 10 _ _ _ "acme" "widget" "opened" 7 _
           47 [Scripted.Removed
                 (Scripted.status 500 "500 Internal Server Error")
                 (Some "500 Internal Server Error")]
           [CallListFiles "acme" "widget" 7 {| Page := 0; PerPage := 100 |}]
           "" (Some "500 Internal Server Error") []
           [CallRemoveLabel "acme" "widget" 7 "size/XS"]
           opened_is_accepted);
    [reflexivity | exact opened_is_relevant | reflexivity..].
Defined.

Lemma signed_request (event text : string) :
  signed (Incomplete.configured "acme/widget")
         (Incomplete.request event text) (list_byte_of_string text).
Proof. split; reflexivity. Defined.

Lemma other_event_types_are_skipped_witness :
  processHook (Incomplete.configured "acme/widget") Fixture.orders 10
    (Incomplete.request "push" "acme/widget opened") []
  = (Done (JSON StatusOK "Skipping event type"), [], []).
Proof.
  apply (other_event_types_are_skipped _ Fixture.orders 10 _ _ []
           (signed_request "push" "acme/widget opened")).
  apply String.eqb_neq. reflexivity.
Defined.

Lemma unreadable_body_is_malformed_witness :
  processHook Fixture.cfg Fixture.orders 10
    {| Headers := [("X-Hub-Signature", "sha1=00")]; Body := None |} []
  = (Done (JSON StatusBadRequest "Malformed body"), [], []).
Proof.
  apply (unreadable_body_is_malformed Fixture.cfg Fixture.orders 10 _ []);
    [apply String.eqb_neq | ]; reflexivity.
Defined.

Lemma unparseable_payload_is_malformed_witness :
  processHook (Incomplete.configured "acme/widget") Fixture.orders 10
    (Incomplete.request "pull_request" "{") []
  = (Done (JSON StatusBadRequest "Malformed body"), [],
     [CallParseWebHook "pull_request" (list_byte_of_string "{")]).
Proof.
  apply (unparseable_payload_is_malformed _ Fixture.orders 10 _ _
           "unexpected end of JSON input" []
           (signed_request "pull_request" "{")); reflexivity.
Defined.

Lemma other_repositories_are_forbidden_witness :
  processHook (Incomplete.configured "acme/gadget") Fixture.orders 10
    (Incomplete.request "pull_request" "acme/widget opened") []
  = (Done (JSON StatusForbidden "Not configured for this repository"), [],
     [CallParseWebHook "pull_request"
        (list_byte_of_string "acme/widget opened")]).
Proof.
  apply (other_repositories_are_forbidden
           (Incomplete.configured "acme/gadget") Fixture.orders 10
           (Incomplete.request "pull_request" "acme/widget opened")
           (list_byte_of_string "acme/widget opened")
           (Fixture.payload "acme/widget" "opened")
           {| FullName := Some "acme/widget" |} "acme/widget"
           "acme" "widget" "acme" [] ["gadget"] []);
    try reflexivity.
  - split; reflexivity.
  - right. exists "gadget", []. split; [reflexivity|].
    apply String.eqb_neq. reflexivity.
Defined.

Lemma bare_full_name_panics_at_the_aggregation_call_witness :
  processHook (Incomplete.configured "acme") Fixture.orders 10
    (Incomplete.request "pull_request" "acme opened") []
  = (Panic (IndexOutOfRange 1 1), [],
     [CallParseWebHook "pull_request" (list_byte_of_string "acme opened")]).
Proof.
  apply (bare_full_name_panics_at_the_aggregation_call
           (Incomplete.configured "acme") Fixture.orders 10
           (Incomplete.request "pull_request" "acme opened")
           (list_byte_of_string "acme opened")
           (Fixture.payload "acme" "opened")
           {| FullName := Some "acme" |} "opened" []);
    try reflexivity.
  - split; reflexivity.
  - exact opened_is_relevant.
Defined.

Lemma payload_without_repository_panics_witness :
  serve (gh := Scripted.client Incomplete.known)
    (Incomplete.configured "acme/widget") Fixture.orders 10
    (Incomplete.request "pull_request" "no repository") []
  = (Done (JSON StatusInternalServerError ""), [],
     [CallParseWebHook "pull_request"
        (list_byte_of_string "no repository")]).
Proof.
  apply (payload_without_repository_panics
           (gh := Scripted.client Incomplete.known)
           (Incomplete.configured "acme/widget") Fixture.orders 10
           (Incomplete.request "pull_request" "no repository")
           (list_byte_of_string "no repository")
           {| Action := Some "opened"; Number := Some 7; Repo := None |} []);
    [split; reflexivity | reflexivity | reflexivity | by left].
Defined.

Lemma payload_without_action_or_number_panics_witness :
  processHook (gh := Scripted.client Incomplete.known)
    (Incomplete.configured "acme/widget") Fixture.orders 10
    (Incomplete.request "pull_request" "no action") []
  = (Panic NilDereference, [],
     [CallParseWebHook "pull_request" (list_byte_of_string "no action")]).
Proof.
  apply (payload_without_action_or_number_panics
           (gh := Scripted.client Incomplete.known)
           (Incomplete.configured "acme/widget") Fixture.orders 10
           (Incomplete.request "pull_request" "no action")
           (list_byte_of_string "no action")
           {| Action := None; Number := Some 7;
              Repo := Some {| FullName := Some "acme/widget" |} |}
           "acme" "widget" []).
  - split; try reflexivity.
    + exists {| FullName := Some "acme/widget" |}, "acme/widget", [].
      by vm_compute.
    + right. exists []. reflexivity.
  - by left.
Defined.

Lemma readPaginatedFileChanges_sums_in_64_bits_witness :
  readPaginatedFileChanges 3 "acme" "widget" 7
    [Scripted.Files [Fixture.file MaxInt64; Fixture.file 1] (Scripted.ok 0)
                    None]
  = (Done (- 2 ^ 63, None), [],
     [CallListFiles "acme" "widget" 7 {| Page := 0; PerPage := 100 |}]).
Proof.
  apply (readPaginatedFileChanges_sums_in_64_bits "acme" "widget" 7 _
           [(0, [Fixture.file MaxInt64; Fixture.file 1])] [] 3%nat).
  - eapply serves_last; reflexivity.
  - simpl.
    repeat first [apply Forall_nil_2 | apply Forall_cons_2 | by eexists].
  - simpl. lia.
Defined.

Lemma file_without_changes_count_panics_witness :
  readPaginatedFileChanges 3 "acme" "widget" 7
    [Scripted.Files [Fixture.file 1; {| Changes := None |}; Fixture.file 2]
                    (Scripted.ok 0) None]
  = (Panic NilDereference, [],
     [CallListFiles "acme" "widget" 7 {| Page := 0; PerPage := 100 |}]).
Proof.
  apply (file_without_changes_count_panics "acme" "widget" 7 _
           [Fixture.file 1] {| Changes := None |} [Fixture.file 2]
           {| StatusCode := 200; Status := "200 OK"; NextPage := 0 |}
           [] 2%nat);
    try reflexivity.
  repeat first [apply Forall_nil_2 | apply Forall_cons_2 | by eexists].
Defined.

Lemma endless_listing_never_returns_witness :
  outcome_of (readPaginatedFileChanges (gh := Endless.client) 25
                "acme" "widget" 7 0%nat) = OutOfFuel
  /\ length (calls_of (readPaginatedFileChanges (gh := Endless.client) 25
                         "acme" "widget" 7 0%nat)) = 25%nat.
Proof.
  apply (endless_listing_never_returns (gh := Endless.client)
           "acme" "widget" 7).
  intros opts w. eexists _, _, _.
  split; [reflexivity|]. split; [reflexivity|]. split.
  - repeat first [apply Forall_nil_2 | apply Forall_cons_2 | by eexists].
  - simpl. lia.
Defined.

Lemma default_table_selects_by_thresholds_witness :
  selected (-5) (rev defaultEntries) = bucket (int64 (-5))
  /\ selected 1000 (rev defaultEntries) = bucket (int64 1000).
Proof.
  assert (ranges_over defaultSizes (rev defaultEntries)) as Hord.
  { apply ranges_over_default. symmetry. apply Permutation_rev. }
  split; by apply default_table_selects_by_thresholds.
Defined.

Lemma accepted_signature_is_sha1_and_forty_lowercase_hex_digits_witness :
  exists digest,
    sign "s3cret" (Fixture.body "acme/widget" "opened") = "sha1=" +:+ digest
    /\ String.length digest = 40%nat
    /\ Forall lower_hex (list_ascii_of_string digest).
Proof.
  apply (accepted_signature_is_sha1_and_forty_lowercase_hex_digits
           Fixture.cfg _ (Fixture.body "acme/widget" "opened")).
  vm_compute. reflexivity.
Defined.

Lemma upstream_is_reached_only_for_signed_relevant_events_witness :
  exists body payload action,
    signed Fixture.cfg (Fixture.request "s3cret" "acme/widget" "opened") body
    /\ GetHeader (Headers (Fixture.request "s3cret" "acme/widget" "opened"))
         "X-GitHub-Event" = "pull_request"
    /\ ParseWebHook "pull_request" body = inl (PullRequest payload)
    /\ Action payload = Some action
    /\ action ∈ codeActions.
Proof.
  apply (upstream_is_reached_only_for_signed_relevant_events
           Fixture.cfg Fixture.orders 10
           (Fixture.request "s3cret" "acme/widget" "opened") []).
  vm_compute. apply Exists_cons_tl, Exists_cons_hd. reflexivity.
Defined.

Lemma parsed_event_of_another_type_panics_witness :
  serve (Incomplete.configured "acme/widget") Fixture.orders 10
    (Incomplete.request "pull_request" "null") []
  = (Done (JSON StatusInternalServerError ""), [],
     [CallParseWebHook "pull_request" (list_byte_of_string "null")]).
Proof.
  apply (parsed_event_of_another_type_panics
           (Incomplete.configured "acme/widget") Fixture.orders 10
           (Incomplete.request "pull_request" "null")
           (list_byte_of_string "null") NilEvent []);
    [split; reflexivity | reflexivity | reflexivity | discriminate].
Defined.

(** Header names are found under whatever letter case they were sent. *)
Example lower_case_header_names_are_found :
  let body := Fixture.body "acme/widget" "opened" in
  let run :=
    processHook (gh := Hub.client Fixture.known) Fixture.cfg Fixture.orders 10
      {| Headers := [ ("x-hub-signature", sign "s3cret" body);
                      ("x-github-event", "pull_request") ];
         Body := Some body |}
      {| Hub.labelsOf := ∅;
         Hub.filesOf :=
           {[ ("acme", "widget", 7) := [Fixture.file 40; Fixture.file 7] ]} |}
  in
  outcome_of run = Done (JSON 200 "Success")
  /\ length (List.filter upstream (calls_of run)) = 8%nat.
Proof. vm_compute. done. Qed.

End MoreRuns.
